(** * Stock valuation service: ticker resolution and valuation engine

    A shallow embedding of [main.py]: the resolver [get_stock_data_sync],
    which turns a raw ticker into a market snapshot by querying the external
    data source for one or two candidate symbols, and the endpoint
    [evaluate], which blends four per-share estimates into a target price.

    Number model.  Python's [int] and [float] values are embedded as exact
    rationals ([Q]); [==], [>] and [max] are the comparisons of the source,
    [/] is true division and raises [ZeroDivisionError] on a zero divisor,
    [round(x, 2)] rounds half to even at the second decimal.  The rounding
    error of binary64 arithmetic is outside the model.

    Text model.  A Python [str] is a list of Unicode code points.  The
    character tables behind [str.strip], [str.upper] and [str.isdigit] belong
    to the Python runtime; they are the fields of the class [Unicode], and
    [ascii_tables] gives them on the ASCII range.

    Source model.  The external source answers each candidate symbol in
    one of three ways: building the handle raises (line 30, outside the
    inner [try], so the outer handler of lines 57-59 ends the resolution),
    reading the record raises (line 32, swallowed by the inner handler), or
    the read returns.

    Record model.  The info record of the data source is read field by
    field with a default, so it is a record of optional fields: a number
    where the source reads a number, text where it reads text, [None] for an
    absent key. *)

From stdpp Require Import gmap list.
From Stdlib Require Import QArith Qround Qminmax Lqa.

Local Open Scope Q_scope.

(** ** Python text *)

Definition str := list N.

Class Unicode := {
  isspace_cp : N → bool;        (* Py_UNICODE_ISSPACE *)
  isdigit_cp : N → bool;        (* Py_UNICODE_ISDIGIT *)
  toupper_cp : N → list N       (* full upper-case mapping of one code point *)
}.

Section Text.
Context `{Unicode}.

Fixpoint lstrip (s : str) : str :=
  match s with
  | c :: s' => if isspace_cp c then lstrip s' else s
  | [] => []
  end.

Definition rstrip (s : str) : str := rev (lstrip (rev s)).

(** [s.strip()] *)
Definition strip (s : str) : str := rstrip (lstrip s).

(** [s.upper()] *)
Definition upper (s : str) : str := flat_map toupper_cp s.

(** [s.isdigit()]: at least one character, and every character a digit. *)
Definition isdigit (s : str) : bool :=
  match s with
  | [] => false
  | _ => forallb isdigit_cp s
  end.
End Text.

(** The tables on the ASCII range: white space is TAB..CR, FS..US and the
    space; the digits are 0..9; a..z map to A..Z. *)
Definition ascii_tables : Unicode := {|
  isspace_cp c := ((9 <=? c) && (c <=? 13) || (28 <=? c) && (c <=? 32))%N;
  isdigit_cp c := ((48 <=? c) && (c <=? 57))%N;
  toupper_cp c := if ((97 <=? c) && (c <=? 122))%N then [(c - 32)%N] else [c]
|}.

(** ASCII literals of the source. *)
Definition dot_TW : str := [46; 84; 87]%N.            (* ".TW" *)
Definition dot_TWO : str := [46; 84; 87; 79]%N.       (* ".TWO" *)
Definition TWD : str := [84; 87; 68]%N.               (* "TWD" *)
Definition USD : str := [85; 83; 68]%N.               (* "USD" *)
Definition NT_dollar : str := [78; 84; 36]%N.         (* "NT$" *)
Definition dollar : str := [36]%N.                    (* "$" *)
Definition yahoo_finance_global : str :=       (* "Yahoo Finance (Global)" *)
  [89; 97; 104; 111; 111; 32; 70; 105; 110; 97; 110; 99; 101; 32;
   40; 71; 108; 111; 98; 97; 108; 41]%N.

(** The industry labels of the source, the keys of [ind_map]. *)
Definition label_technology : str := [0x79d1; 0x6280]%N.    (* 科技 *)
Definition label_healthcare : str := [0x91ab; 0x7642]%N.    (* 醫療 *)
Definition label_financial : str := [0x91d1; 0x878d]%N.     (* 金融 *)
Definition label_energy : str := [0x80fd; 0x6e90]%N.        (* 能源 *)
Definition label_consumer : str := [0x6d88; 0x8cbb]%N.      (* 消費 *)
Definition label_industrial : str := [0x5de5; 0x696d]%N.    (* 工業 *)

(** The English word, which is not a key of [ind_map]. *)
Definition english_financial : str :=                 (* "financial" *)
  [102; 105; 110; 97; 110; 99; 105; 97; 108]%N.

(** The detail of the 404 response:
    找不到該股票數據，請確認代碼是否正確 (台股輸入數字, 美股輸入代號) *)
Definition not_found_detail : str :=
  [0x627e; 0x4e0d; 0x5230; 0x8a72; 0x80a1; 0x7968; 0x6578; 0x64da; 0xff0c;
   0x8acb; 0x78ba; 0x8a8d; 0x4ee3; 0x78bc; 0x662f; 0x5426; 0x6b63; 0x78ba;
   32; 40; 0x53f0; 0x80a1; 0x8f38; 0x5165; 0x6578; 0x5b57; 44; 32; 0x7f8e;
   0x80a1; 0x8f38; 0x5165; 0x4ee3; 0x865f; 41]%N.

(** ** Python numbers and exceptions *)

Inductive exn :=
  | HTTPException (status_code : Z) (detail : str)
  | ZeroDivisionError.

Inductive outcome (A : Type) :=
  | Return (a : A)
  | Raise (e : exn).
Arguments Return {A} a.
Arguments Raise {A} e.

(** Sequencing stops at the first exception. *)
#[global] Instance outcome_ret : MRet outcome := λ A a, Return a.
#[global] Instance outcome_bind : MBind outcome := λ A B k m,
  match m with
  | Return a => k a
  | Raise e => Raise e
  end.

Module Py.
(** [a > b] *)
Definition gt (a b : Q) : bool := negb (Qle_bool a b).

(** [a == b] *)
Definition eqb (a b : Q) : bool := Qeq_bool a b.

(** [max(a, b)]: the first argument is kept unless the second is greater. *)
Definition max (a b : Q) : Q := if gt b a then b else a.

(** [a / b] *)
Definition truediv (a b : Q) : outcome Q :=
  if eqb b 0 then Raise ZeroDivisionError else Return (a / b).

(** [sum(l)] *)
Definition sum (l : list Q) : Q := fold_left Qplus l 0.

(** [len(l)] *)
Definition len (l : list Q) : Q := inject_Z (Z.of_nat (length l)).

(** Nearest integer, ties to the even one. *)
Definition round_half_even (x : Q) : Z :=
  let f := Qfloor x in
  match Qcompare (x - inject_Z f) (1 # 2) with
  | Lt => f
  | Gt => (f + 1)%Z
  | Eq => if Z.even f then f else (f + 1)%Z
  end.

(** [round(x, 2)] *)
Definition round2 (x : Q) : Q := round_half_even (x * 100) # 100.
End Py.

(** ** The records *)

(** The info record of the external source, with the fields the resolver
    reads. *)
Module Info.
Record t := mk {
  symbol : option str;
  shortName : option str;
  currentPrice : option Q;
  regularMarketPrice : option Q;
  forwardEps : option Q;
  trailingEps : option Q;
  targetMeanPrice : option Q;
  beta : option Q;
  ebitda : option Q;
  totalDebt : option Q;
  totalCash : option Q;
  sharesOutstanding : option Q;
  currency : option str
}.
End Info.

(** The snapshot dictionary returned by [get_stock_data_sync]. *)
Module Data.
Record t := mk {
  symbol : str;
  name : str;
  current_price : Q;
  future_eps : Q;
  target_mean : Q;
  beta : Q;
  ebitda : Q;
  total_debt : Q;
  total_cash : Q;
  shares : Q;
  currency : str
}.
End Data.

(** The response of [evaluate].  [wacc] holds the number
    [round(wacc_val * 100, 2)], which the source prints followed by a
    percent sign. *)
Module Response.
Record t := mk {
  symbol : str;
  name : str;
  current_price : Q;
  target : Q;
  analyst_target : Q;
  pe : Q;
  ev : Q;
  dcf : Q;
  wacc : Q;
  currency : str;
  data_source : str
}.
End Response.

(** One entry of [ind_map]. *)
Module Ind.
Record t := mk { pe : Q; growth : Q }.
End Ind.

#[global] Instance Ind_inhabited : Inhabited Ind.t := populate (Ind.mk 0 0).

(** ** The resolver: [get_stock_data_sync] *)

(** What trying one candidate does with the external source.  Building the
    handle [yf.Ticker(t)] on line 30 may raise; that happens outside the
    inner [try], so the exception reaches the handler of lines 57-59.
    Reading [stock.info] on line 32 may raise, inside the inner [try], or
    return a record ([None] standing for a [None] or empty result, which
    the loop screens by [if temp_info and ...]). *)
Inductive fetch :=
  | TickerRaises
  | InfoRaises
  | Returns (temp_info : option Info.t).

(** What one turn of the loop of lines 29-39 comes to. *)
Inductive turn :=
  | Accepted (info : Info.t)      (* lines 35-37: [break] *)
  | Skipped                       (* line 39, or a record that is not taken *)
  | Aborted.                      (* line 30 raised: on to line 57 *)

(** How the outer [try] of lines 13-56 ends. *)
Inductive resolution :=
  | Found (info : Info.t) (final_ticker : str)   (* lines 44-56 *)
  | NotFound                                     (* line 42 *)
  | Handled.                                     (* lines 57-59 *)

(** A run of the loop: the candidates for which a handle was built or
    attempted (line 30), those whose [info] was read (line 32), and the
    way the run ends. *)
Record run := mk_run {
  run_tried : list str;
  run_queried : list str;
  run_result : resolution
}.

(** [info.get(k) or b]: the value of key [k] unless it is absent or zero. *)
Definition get_or (a : option Q) (b : Q) : Q :=
  match a with
  | Some x => if Py.eqb x 0 then b else x
  | None => b
  end.

Section Resolver.
Context `{Unicode}.

(** The external data source. *)
Variable yf_info : str → fetch.

(** Lines 18-23: the candidate symbols of a normalized ticker. *)
Definition search_tickers (raw_ticker : str) : list str :=
  if isdigit raw_ticker
  then [raw_ticker ++ dot_TW; raw_ticker ++ dot_TWO]
  else [raw_ticker].

(** Line 34: one of the keys [currentPrice], [regularMarketPrice] is in
    [temp_info]. *)
Definition has_price (temp_info : Info.t) : bool :=
  bool_decide (is_Some (Info.currentPrice temp_info))
  || bool_decide (is_Some (Info.regularMarketPrice temp_info)).

(** Lines 30-39, one turn of the loop. *)
Definition attempt (t : str) : turn :=
  match yf_info t with
  | TickerRaises => Aborted
  | InfoRaises => Skipped
  | Returns None => Skipped
  | Returns (Some temp_info) =>
      if has_price temp_info then Accepted temp_info else Skipped
  end.

(** Lines 29-39: the loop, inside the outer [try]. *)
Fixpoint try_tickers (ts : list str) : run :=
  match ts with
  | [] => mk_run [] [] NotFound
  | t :: ts' =>
      match attempt t with
      | Accepted info => mk_run [t] [t] (Found info t)
      | Skipped =>
          let r := try_tickers ts' in
          mk_run (t :: run_tried r) (t :: run_queried r) (run_result r)
      | Aborted => mk_run [t] [] Handled
      end
  end.

(** Lines 44-56: the snapshot built from the accepted record. *)
Definition snapshot (info : Info.t) (final_ticker : str) : Data.t := {|
  Data.symbol := upper (default final_ticker (Info.symbol info));
  Data.name := default [] (Info.shortName info);
  Data.current_price :=
    get_or (Info.currentPrice info) (default 0 (Info.regularMarketPrice info));
  Data.future_eps :=
    get_or (Info.forwardEps info) (default 0 (Info.trailingEps info));
  Data.target_mean := default 0 (Info.targetMeanPrice info);
  Data.beta := default 1.0 (Info.beta info);
  Data.ebitda := default 0 (Info.ebitda info);
  Data.total_debt := default 0 (Info.totalDebt info);
  Data.total_cash := default 0 (Info.totalCash info);
  Data.shares := default 1 (Info.sharesOutstanding info);
  Data.currency := default USD (Info.currency info)
|}.

(** The candidates tried while resolving [ticker_str]: a handle was built,
    or its construction raised. *)
Definition tried (ticker_str : str) : list str :=
  run_tried (try_tickers (search_tickers (upper (strip ticker_str)))).

(** The candidates queried while resolving [ticker_str]: their [info] was
    read. *)
Definition queried (ticker_str : str) : list str :=
  run_queried (try_tickers (search_tickers (upper (strip ticker_str)))).

(** [get_stock_data_sync]; [None] is the not-found result, returned on line
    42 when no candidate was accepted and on line 59 when an exception
    reached the outer handler.  In this model only line 30 raises outside
    the inner [try]. *)
Definition get_stock_data_sync (ticker_str : str) : option Data.t :=
  let raw_ticker := upper (strip ticker_str) in
  match run_result (try_tickers (search_tickers raw_ticker)) with
  | Found info final_ticker => Some (snapshot info final_ticker)
  | NotFound => None
  | Handled => None
  end.
End Resolver.

(** ** The valuation engine: [evaluate] *)

(** Lines 73-80. *)
Definition ind_map (is_tw : bool) : gmap str Ind.t :=
  list_to_map [
    (label_technology, Ind.mk (if negb is_tw then 25 else 18) 0.04);
    (label_healthcare, Ind.mk (if negb is_tw then 22 else 20) 0.03);
    (label_financial,  Ind.mk (if negb is_tw then 12 else 10) 0.02);
    (label_energy,     Ind.mk (if negb is_tw then 10 else 8) 0.02);
    (label_consumer,   Ind.mk (if negb is_tw then 18 else 15) 0.03);
    (label_industrial, Ind.mk (if negb is_tw then 15 else 12) 0.025)
  ].

(** Line 70. *)
Definition is_tw (data : Data.t) : bool :=
  bool_decide (Data.currency data = TWD).

(** Line 81: [ind_map.get(industry, ind_map['科技'])]. *)
Definition ind (is_tw : bool) (industry : str) : Ind.t :=
  default (ind_map is_tw !!! label_technology) (ind_map is_tw !! industry).

(** Line 84. *)
Definition rf (is_tw : bool) : Q := if is_tw then 0.015 else 0.042.

(** Line 85. *)
Definition wacc_val (data : Data.t) : Q :=
  Py.max (rf (is_tw data) + Data.beta data * 0.055) 0.05.

(** Line 89. *)
Definition v_pe (data : Data.t) (ind : Ind.t) : Q :=
  if Py.gt (Data.future_eps data) 0
  then Data.future_eps data * Ind.pe ind
  else 0.

(** Lines 92-95. *)
Definition v_ev (data : Data.t) : outcome Q :=
  if Py.gt (Data.ebitda data) 0 && Py.gt (Data.shares data) 0
  then Py.truediv
         (Data.ebitda data * 12 - Data.total_debt data + Data.total_cash data)
         (Data.shares data)
  else Return 0.

(** Line 98. *)
Definition v_dcf (data : Data.t) (ind : Ind.t) (wacc_val : Q) : outcome Q :=
  if Py.gt (Data.future_eps data) 0
  then Py.truediv
         (Data.future_eps data * (1 + Ind.growth ind))
         (Py.max (wacc_val - Ind.growth ind) 0.015)
  else Return 0.

(** Line 104. *)
Definition valid_vals (vs : list Q) : list Q :=
  List.filter (λ v, Py.gt v 0) vs.

(** Line 105. *)
Definition final_target (data : Data.t) (valid_vals : list Q) : outcome Q :=
  match valid_vals with
  | [] => Return (Data.current_price data)
  | _ => Py.truediv (Py.sum valid_vals) (Py.len valid_vals)
  end.

(** Lines 69-119: the body of [evaluate] once the snapshot has passed the
    guard of line 66. *)
Definition valuation (data : Data.t) (industry : str) : outcome Response.t :=
  let is_tw := is_tw data in
  let ind := ind is_tw industry in
  let wacc_val := wacc_val data in
  let v_pe := v_pe data ind in
  v_ev ← v_ev data;
  v_dcf ← v_dcf data ind wacc_val;
  let v_analyst := Data.target_mean data in
  final_target ← final_target data (valid_vals [v_pe; v_ev; v_dcf; v_analyst]);
  mret {|
    Response.symbol := Data.symbol data;
    Response.name := Data.name data;
    Response.current_price := Py.round2 (Data.current_price data);
    Response.target := Py.round2 final_target;
    Response.analyst_target := Py.round2 v_analyst;
    Response.pe := Py.round2 v_pe;
    Response.ev := Py.round2 v_ev;
    Response.dcf := Py.round2 v_dcf;
    Response.wacc := Py.round2 (wacc_val * 100);
    Response.currency := if is_tw then NT_dollar else dollar;
    Response.data_source := yahoo_finance_global
  |}.

(** Lines 66-119: [evaluate] from the result of the resolver on. *)
Definition evaluate_data (data : option Data.t) (industry : str)
  : outcome Response.t :=
  match data with
  | None => Raise (HTTPException 404 not_found_detail)
  | Some data =>
      if Py.eqb (Data.current_price data) 0
      then Raise (HTTPException 404 not_found_detail)
      else valuation data industry
  end.

(** Lines 62-119: the endpoint. *)
Definition evaluate `{Unicode} (yf_info : str → fetch) (ticker industry : str)
  : outcome Response.t :=
  evaluate_data (get_stock_data_sync yf_info ticker) industry.

(** The snapshot of the worked example; the fields the example leaves open
    are parameters. *)
Definition example_snapshot (symbol name : str)
    (total_debt total_cash shares : Q) : Data.t := {|
  Data.symbol := symbol;
  Data.name := name;
  Data.current_price := 100;
  Data.future_eps := 10;
  Data.target_mean := 0;
  Data.beta := 1.0;
  Data.ebitda := 0;
  Data.total_debt := total_debt;
  Data.total_cash := total_cash;
  Data.shares := shares;
  Data.currency := TWD
|}.

(** ** Sample inputs *)

(** The worked example with no debt, no cash and one share. *)
Definition tw_example : Data.t := example_snapshot [] [] 0 0 1.

(** A foreign snapshot whose debt exceeds twelve times its ebitda plus its
    cash, with no earnings and no analyst target. *)
Definition indebted : Data.t := {|
  Data.symbol := [88]%N;
  Data.name := [];
  Data.current_price := 50;
  Data.future_eps := 0;
  Data.target_mean := 0;
  Data.beta := -10;
  Data.ebitda := 1;
  Data.total_debt := 100;
  Data.total_cash := 0;
  Data.shares := 1;
  Data.currency := USD
|}.

(** A resolved snapshot without a price. *)
Definition unpriced : Data.t := {|
  Data.symbol := [88]%N;
  Data.name := [];
  Data.current_price := 0;
  Data.future_eps := 1;
  Data.target_mean := 0;
  Data.beta := 1;
  Data.ebitda := 0;
  Data.total_debt := 0;
  Data.total_cash := 0;
  Data.shares := 1;
  Data.currency := USD
|}.

(** A record that only carries a regular market price. *)
Definition priced_info (price : Q) : Info.t := {|
  Info.symbol := None;
  Info.shortName := None;
  Info.currentPrice := None;
  Info.regularMarketPrice := Some price;
  Info.forwardEps := None;
  Info.trailingEps := None;
  Info.targetMeanPrice := None;
  Info.beta := None;
  Info.ebitda := None;
  Info.totalDebt := None;
  Info.totalCash := None;
  Info.sharesOutstanding := None;
  Info.currency := None
|}.

Definition ticker_2330 : str := [32; 50; 51; 51; 48; 32]%N.      (* " 2330 " *)
Definition ticker_aapl : str := [97; 97; 112; 108]%N.           (* "aapl" *)
Definition s_2330_TW : str := [50; 51; 51; 48; 46; 84; 87]%N.    (* "2330.TW" *)
Definition s_2330_TWO : str := [50; 51; 51; 48; 46; 84; 87; 79]%N.
Definition s_AAPL : str := [65; 65; 80; 76]%N.                   (* "AAPL" *)

(** A source whose read of 2330.TW raises, which knows 2330.TWO and AAPL,
    cannot build a handle for the empty symbol, and returns nothing for
    any other symbol. *)
Definition otc_source (t : str) : fetch :=
  if bool_decide (t = s_2330_TW) then InfoRaises
  else if bool_decide (t = s_2330_TWO) then Returns (Some (priced_info 600))
  else if bool_decide (t = s_AAPL) then Returns (Some (priced_info 200))
  else if bool_decide (t = []) then TickerRaises
  else Returns None.

(** A source that knows every symbol, at the same price. *)
Definition flat_source (t : str) : fetch :=
  Returns (Some (priced_info 600)).

(** ** The blend as the specification words it *)

#[global] Instance Qlt_decision (a b : Q) : Decision (a < b) :=
  match Qlt_le_dec a b with
  | left Hlt => left Hlt
  | right Hle => right (Qle_not_lt _ _ Hle)
  end.

(** The arithmetic mean of a list of rationals. *)
Definition mean (l : list Q) : Q :=
  fold_right Qplus 0 l / inject_Z (Z.of_nat (length l)).

(** Those of the estimates that are strictly greater than 0. *)
Definition strictly_positive (estimates : list Q) : list Q :=
  filter (λ v, 0 < v) estimates.

(** ** The answers of the source as the specification words them *)

(** The answer carries a record with a usable price field: the read returned
    [info], and [info] has one of the two price keys. *)
Definition usable (answer : fetch) (info : Info.t) : Prop :=
  answer = Returns (Some info) ∧
  (is_Some (Info.currentPrice info) ∨ is_Some (Info.regularMarketPrice info)).

(** The answer is a miss: the read raised, or returned nothing, or returned
    a record with neither price key. *)
Definition miss (answer : fetch) : Prop :=
  answer = InfoRaises ∨
  answer = Returns None ∨
  ∃ info, answer = Returns (Some info) ∧
          Info.currentPrice info = None ∧
          Info.regularMarketPrice info = None.

(** ** Notions for the further properties *)

(** A string of white space only, the empty string included. *)
Definition blank `{Unicode} (s : str) : Prop :=
  Forall (λ c, isspace_cp c = true) s.

(** A numeric key that is absent from the record or holds zero: what
    [info.get(k) or ...] passes over. *)
Definition absent_or_zero (o : option Q) : Prop :=
  match o with
  | Some x => x == 0
  | None => True
  end.

(** [y] is [x] rounded to hundredths: a whole number of hundredths, at most
    half a hundredth away from [x], which rounding again leaves alone. *)
Definition rounded_from (y x : Q) : Prop :=
  (∃ n : Z, y = n # 100) ∧
  - 0.005 <= y - x ∧ y - x <= 0.005 ∧
  Py.round2 y = y.

(** The keys of [ind_map], in the order of lines 74-79. *)
Definition ind_keys : list str :=
  [label_technology; label_healthcare; label_financial;
   label_energy; label_consumer; label_industrial].

(** ** Further sample inputs *)

Definition ticker_2330_bare : str := [50; 51; 51; 48]%N.         (* "2330" *)
Definition one_space : str := [32]%N.                            (* " " *)
Definition space_tab : str := [32; 9]%N.

(** A record with the given price, earnings, ebitda and currency keys and
    no other. *)
Definition sample_info (currentPrice forwardEps trailingEps ebitda : option Q)
    (currency : option str) : Info.t := {|
  Info.symbol := None;
  Info.shortName := None;
  Info.currentPrice := currentPrice;
  Info.regularMarketPrice := None;
  Info.forwardEps := forwardEps;
  Info.trailingEps := trailingEps;
  Info.targetMeanPrice := None;
  Info.beta := None;
  Info.ebitda := ebitda;
  Info.totalDebt := None;
  Info.totalCash := None;
  Info.sharesOutstanding := None;
  Info.currency := currency
|}.

(** A record with a zero price, a loss forecast after a profit, and ebitda. *)
Definition loss_info : Info.t :=
  sample_info (Some 0) (Some (-2)) (Some 5) (Some 10) (Some TWD).

(** A foreign snapshot with earnings, little debt and an analyst target. *)
Definition solvent : Data.t := {|
  Data.symbol := [88]%N;
  Data.name := [];
  Data.current_price := 30;
  Data.future_eps := 2;
  Data.target_mean := 40;
  Data.beta := 1;
  Data.ebitda := 10;
  Data.total_debt := 20;
  Data.total_cash := 0;
  Data.shares := 4;
  Data.currency := USD
|}.

(** A snapshot with a negative price and nothing to value. *)
Definition negative_priced : Data.t := {|
  Data.symbol := [88]%N;
  Data.name := [];
  Data.current_price := -5;
  Data.future_eps := 0;
  Data.target_mean := 0;
  Data.beta := 1;
  Data.ebitda := 0;
  Data.total_debt := 0;
  Data.total_cash := 0;
  Data.shares := 1;
  Data.currency := USD
|}.

(** A source whose record for 2330.TW has no price key, and which knows
    every other symbol at 600. *)
Definition priceless_primary_source (t : str) : fetch :=
  if bool_decide (t = s_2330_TW)
  then Returns (Some (sample_info None (Some 3) None (Some 10) (Some TWD)))
  else Returns (Some (priced_info 600)).


(** A record with a positive forecast. *)
Definition profit_info : Info.t :=
  sample_info (Some 50) (Some 4) (Some (-1)) None None.

(** A source whose record for 2330.TW has a price key holding 0, and which
    knows every other symbol at 600. *)
Definition zero_primary_source (t : str) : fetch :=
  if bool_decide (t = s_2330_TW) then Returns (Some (priced_info 0))
  else Returns (Some (priced_info 600)).

(** ** Python's comparisons, [max], [/] and [sum] on rationals *)

Lemma gtP a b : reflect (b < a) (Py.gt a b).
Proof.
  unfold Py.gt. destruct (Qle_bool a b) eqn:E; constructor.
  - apply Qle_bool_iff in E. lra.
  - assert (¬ a <= b) by (rewrite <- Qle_bool_iff; congruence). lra.
Qed.

Lemma eqbP a b : reflect (a == b) (Py.eqb a b).
Proof.
  unfold Py.eqb. destruct (Qeq_bool a b) eqn:E; constructor.
  - by apply Qeq_bool_iff.
  - rewrite <- Qeq_bool_iff. congruence.
Qed.

Lemma gt_true a b : b < a → Py.gt a b = true.
Proof. by destruct (gtP a b). Qed.

Lemma gt_false a b : a <= b → Py.gt a b = false.
Proof. destruct (gtP a b); [lra | done]. Qed.

Lemma max_Qmax a b : Py.max a b == Qmax a b.
Proof.
  unfold Py.max. destruct (gtP b a).
  - symmetry. apply Q.max_r. lra.
  - symmetry. apply Q.max_l. lra.
Qed.

Lemma max_ge_r a b : b <= Py.max a b.
Proof. unfold Py.max. destruct (gtP b a); lra. Qed.

Lemma truediv_Return a b : ¬ b == 0 → Py.truediv a b = Return (a / b).
Proof. intros Hb. unfold Py.truediv. by destruct (eqbP b 0). Qed.

Lemma fold_left_Qplus_ge (l : list Q) : ∀ a,
  Forall (λ v, 0 < v) l → a <= fold_left Qplus l a.
Proof.
  induction l as [|x l IH]; intros a Hl; simpl.
  - lra.
  - inversion Hl; subst. specialize (IH (a + x) ltac:(assumption)). lra.
Qed.

Lemma sum_pos (l : list Q) :
  Forall (λ v, 0 < v) l → l ≠ [] → 0 < Py.sum l.
Proof.
  destruct l as [|x l]; [done |]. intros Hl _. unfold Py.sum. simpl.
  inversion Hl; subst.
  pose proof (fold_left_Qplus_ge l (0 + x) ltac:(assumption)). lra.
Qed.

Lemma len_pos (l : list Q) : l ≠ [] → 0 < Py.len l.
Proof.
  destruct l as [|x l]; [done |]. intros _. unfold Py.len.
  change 0 with (inject_Z 0). rewrite <- Zlt_Qlt. simpl length. lia.
Qed.

Lemma valid_vals_In vs v : In v (valid_vals vs) ↔ In v vs ∧ 0 < v.
Proof.
  unfold valid_vals. rewrite filter_In.
  split; intros [Hin Hv]; (split; [done |]); by destruct (gtP v 0).
Qed.

Lemma valid_vals_pos vs : Forall (λ v, 0 < v) (valid_vals vs).
Proof.
  apply List.Forall_forall. intros v Hv. by apply valid_vals_In in Hv as [_ ?].
Qed.

Lemma valid_vals_nil vs : valid_vals vs = [] ↔ ∀ v, In v vs → ¬ 0 < v.
Proof.
  split.
  - intros E v Hin Hv.
    assert (Hi : In v (valid_vals vs)) by by apply valid_vals_In.
    by rewrite E in Hi.
  - intros Hn. destruct (valid_vals vs) as [|v l] eqn:E; [done |].
    assert (Hi : In v (valid_vals vs)) by (rewrite E; by left).
    apply valid_vals_In in Hi as [Hin Hv]. by destruct (Hn v Hin).
Qed.

(** ** The estimates never divide by zero *)

Lemma v_ev_cases data :
  (0 < Data.ebitda data ∧ 0 < Data.shares data ∧
   v_ev data =
     Return ((Data.ebitda data * 12 - Data.total_debt data + Data.total_cash data)
             / Data.shares data))
  ∨ (¬ (0 < Data.ebitda data ∧ 0 < Data.shares data) ∧ v_ev data = Return 0).
Proof.
  unfold v_ev.
  destruct (gtP (Data.ebitda data) 0) as [He|He]; simpl;
    [destruct (gtP (Data.shares data) 0) as [Hs|Hs] |].
  - left. repeat split; [done .. |]. apply truediv_Return. lra.
  - right. split; [tauto | done].
  - right. split; [tauto | done].
Qed.

Lemma dcf_divisor_ge w g : 0.015 <= Py.max (w - g) 0.015.
Proof. apply max_ge_r. Qed.

Lemma v_dcf_cases data ind w :
  (0 < Data.future_eps data ∧
   v_dcf data ind w =
     Return (Data.future_eps data * (1 + Ind.growth ind)
             / Py.max (w - Ind.growth ind) 0.015))
  ∨ (¬ 0 < Data.future_eps data ∧ v_dcf data ind w = Return 0).
Proof.
  unfold v_dcf. destruct (gtP (Data.future_eps data) 0) as [He|He].
  - left. split; [done |]. apply truediv_Return.
    pose proof (dcf_divisor_ge w (Ind.growth ind)). lra.
  - by right.
Qed.

Lemma final_target_cases data vs :
  let vals := valid_vals vs in
  (vals ≠ [] ∧ final_target data vals = Return (Py.sum vals / Py.len vals))
  ∨ (vals = [] ∧ final_target data vals = Return (Data.current_price data)).
Proof.
  intros vals. unfold final_target. destruct vals as [|v l] eqn:E; [by right |].
  left. split; [done |]. apply truediv_Return.
  pose proof (len_pos (v :: l) ltac:(done)). lra.
Qed.

(** The response, given the three results that involve a division. *)
Lemma valuation_eq data industry ev dcf ft :
  let p := ind (is_tw data) industry in
  v_ev data = Return ev →
  v_dcf data p (wacc_val data) = Return dcf →
  final_target data (valid_vals [v_pe data p; ev; dcf; Data.target_mean data])
    = Return ft →
  valuation data industry = Return {|
    Response.symbol := Data.symbol data;
    Response.name := Data.name data;
    Response.current_price := Py.round2 (Data.current_price data);
    Response.target := Py.round2 ft;
    Response.analyst_target := Py.round2 (Data.target_mean data);
    Response.pe := Py.round2 (v_pe data p);
    Response.ev := Py.round2 ev;
    Response.dcf := Py.round2 dcf;
    Response.wacc := Py.round2 (wacc_val data * 100);
    Response.currency := if is_tw data then NT_dollar else dollar;
    Response.data_source := yahoo_finance_global
  |}.
Proof.
  intros p Hev Hdcf Hft. unfold valuation. cbv zeta. fold p.
  rewrite Hev. unfold mbind at 1, outcome_bind at 1.
  rewrite Hdcf. unfold mbind at 1, outcome_bind at 1.
  by rewrite Hft.
Qed.

(** The body of [evaluate] always returns: each of its three divisions has a
    non-zero divisor.  The response holds the rounded estimates. *)
Lemma valuation_Return data industry :
  let p := ind (is_tw data) industry in
  ∃ ev dcf ft r,
    v_ev data = Return ev ∧
    v_dcf data p (wacc_val data) = Return dcf ∧
    final_target data (valid_vals [v_pe data p; ev; dcf; Data.target_mean data])
      = Return ft ∧
    valuation data industry = Return r ∧
    Response.current_price r = Py.round2 (Data.current_price data) ∧
    Response.target r = Py.round2 ft ∧
    Response.analyst_target r = Py.round2 (Data.target_mean data) ∧
    Response.pe r = Py.round2 (v_pe data p) ∧
    Response.ev r = Py.round2 ev ∧
    Response.dcf r = Py.round2 dcf.
Proof.
  intros p.
  assert (∃ ev, v_ev data = Return ev) as [ev Hev]
    by (destruct (v_ev_cases data) as [(_ & _ & E)|[_ E]]; eauto).
  assert (∃ dcf, v_dcf data p (wacc_val data) = Return dcf) as [dcf Hdcf]
    by (destruct (v_dcf_cases data p (wacc_val data)) as [[_ E]|[_ E]]; eauto).
  assert (∃ ft, final_target data
                  (valid_vals [v_pe data p; ev; dcf; Data.target_mean data])
                = Return ft) as [ft Hft]
    by (destruct (final_target_cases data
                    [v_pe data p; ev; dcf; Data.target_mean data])
          as [[_ E]|[_ E]]; eauto).
  exists ev, dcf, ft. eexists. repeat (split; [eassumption |]).
  split; [by apply valuation_eq |]. repeat split.
Qed.

Lemma evaluate_data_Some data industry :
  ¬ Data.current_price data == 0 →
  evaluate_data (Some data) industry = valuation data industry.
Proof.
  intros Hp. unfold evaluate_data.
  by destruct (eqbP (Data.current_price data) 0).
Qed.

(** ** Properties of the engine *)

(** C1, for the label of the source.  The worked example:
    the snapshot with currency TWD, futureEps 10, beta 1.0, ebitda 0,
    targetMeanPrice 0 and currentPrice 100, whatever its other fields,
    evaluated for the industry label 金融, the key of the financial entry of
    the table, takes the domestic branch with price-earnings multiple 10 and
    growth 0.02; rf is 0.015 and wacc 0.07, the estimates are v_pe = 100,
    v_dcf = 204, v_ev = 0 and v_analyst = 0, the blended target is the mean
    152 of v_pe and v_dcf, and the response reports target 152.0, pe 100,
    dcf 204, ev 0 and analyst target 0. *)
Theorem C1_worked_example symbol name total_debt total_cash shares :
  let data := example_snapshot symbol name total_debt total_cash shares in
  let p := ind (is_tw data) label_financial in
  is_tw data = true ∧
  Ind.pe p == 10 ∧ Ind.growth p == 0.02 ∧
  rf (is_tw data) == 0.015 ∧
  wacc_val data == 0.07 ∧
  v_pe data p == 100 ∧
  Data.target_mean data == 0 ∧
  ∃ ev dcf ft r,
    v_ev data = Return ev ∧ ev == 0 ∧
    v_dcf data p (wacc_val data) = Return dcf ∧ dcf == 204 ∧
    valid_vals [v_pe data p; ev; dcf; Data.target_mean data]
      = [v_pe data p; dcf] ∧
    final_target data [v_pe data p; dcf] = Return ft ∧ ft == 152 ∧
    evaluate_data (Some data) label_financial = Return r ∧
    Response.target r == 152.0 ∧
    Response.pe r == 100 ∧
    Response.dcf r == 204 ∧
    Response.ev r == 0 ∧
    Response.analyst_target r == 0 ∧
    Response.current_price r == 100 ∧
    Response.wacc r == 7.0 ∧
    Response.currency r = NT_dollar.
Proof.
  intros data p. repeat split; try (vm_compute; reflexivity).
  do 4 eexists.
  repeat match goal with
         | |- _ = _ ∧ _ => split; [vm_compute; reflexivity |]
         | |- _ == _ ∧ _ => split; [reflexivity |]
         end.
  reflexivity.
Qed.

(** A label that is not a key of the table gets the technology entry. *)
Lemma ind_unrecognized (tw : bool) (industry : str) :
  industry ∉ [label_technology; label_healthcare; label_financial;
              label_energy; label_consumer; label_industrial] →
  ind tw industry = ind tw label_technology.
Proof.
  intros Hnot. unfold ind.
  assert (E : ind_map tw !! industry = None).
  { unfold ind_map. apply not_elem_of_list_to_map_1. simpl.
    by rewrite list_elem_of_In in Hnot |- *. }
  rewrite E. simpl. by destruct tw.
Qed.

(** C1 with the English word financial as the label: the word is
    not a key of the table, so the default entry applies, with multiple 18
    and growth 0.04 on the domestic branch; the response reports pe 180,
    dcf 346.67 and target 263.33, not 152. *)
Lemma C1_english_label :
  let p := ind (is_tw tw_example) english_financial in
  p = ind (is_tw tw_example) label_technology ∧
  Ind.pe p == 18 ∧ Ind.growth p == 0.04 ∧
  ¬ (Ind.pe p == 10 ∧ Ind.growth p == 0.02) ∧
  ∃ r, evaluate_data (Some tw_example) english_financial = Return r ∧
       Response.pe r == 180 ∧
       Response.dcf r == 346.67 ∧
       Response.target r == 263.33 ∧
       ¬ Response.target r == 152.
Proof.
  cbv zeta. split; [apply ind_unrecognized; by apply (bool_decide_unpack _) |].
  split; [reflexivity |]. split; [reflexivity |].
  split; [intros [E _]; vm_compute in E; discriminate E |].
  eexists. split; [vm_compute; reflexivity |].
  repeat split. intros E. vm_compute in E. discriminate E.
Qed.

(** Python's [v > 0] filter keeps what the order on the rationals keeps. *)
Lemma valid_vals_strictly_positive vs : valid_vals vs = strictly_positive vs.
Proof.
  unfold valid_vals, strictly_positive.
  induction vs as [|v vs IH]; [done |].
  rewrite filter_cons. simpl. rewrite IH.
  destruct (gtP v 0); by case_decide.
Qed.

Lemma fold_left_Qplus (l : list Q) : ∀ a,
  fold_left Qplus l a == a + fold_right Qplus 0 l.
Proof.
  induction l as [|x l IH]; intros a; simpl; [lra |]. rewrite IH. lra.
Qed.

(** [sum(l) / len(l)] is the arithmetic mean. *)
Lemma sum_len_mean (l : list Q) : Py.sum l / Py.len l == mean l.
Proof.
  unfold Py.sum, Py.len, mean. rewrite fold_left_Qplus.
  by rewrite Qplus_0_l.
Qed.

(** C2.  For every snapshot with currentPrice > 0 and every industry label,
    [evaluate] returns a response whose target is the rounded blended target,
    and the blended target is the arithmetic mean of those of the four
    estimates v_pe, v_ev, v_dcf, v_analyst that are strictly greater than 0;
    when none is, the blended target is currentPrice (and the reported target
    is the reported current price), which is the case when futureEps <= 0,
    ebitda or shares is not positive and targetMeanPrice is 0. *)
Theorem C2_blended_target data industry :
  0 < Data.current_price data →
  let p := ind (is_tw data) industry in
  ∃ ev dcf ft r,
    v_ev data = Return ev ∧
    v_dcf data p (wacc_val data) = Return dcf ∧
    let estimates := [v_pe data p; ev; dcf; Data.target_mean data] in
    final_target data (valid_vals estimates) = Return ft ∧
    evaluate_data (Some data) industry = Return r ∧
    Response.target r = Py.round2 ft ∧
    (strictly_positive estimates ≠ [] →
       ft == mean (strictly_positive estimates)) ∧
    (strictly_positive estimates = [] →
       ft = Data.current_price data ∧
       Response.target r = Response.current_price r) ∧
    (Data.future_eps data <= 0 →
     ¬ (0 < Data.ebitda data ∧ 0 < Data.shares data) →
     Data.target_mean data == 0 →
     strictly_positive estimates = []).
Proof.
  intros Hprice p.
  destruct (valuation_Return data industry)
    as (ev & dcf & ft & r & Hev & Hdcf & Hft & Hr & Hcp & Htg & _).
  fold p in Hdcf, Hft.
  exists ev, dcf, ft, r. cbv zeta.
  rewrite evaluate_data_Some by lra.
  repeat (split; [assumption |]).
  rewrite <- valid_vals_strictly_positive.
  set (estimates := [v_pe data p; ev; dcf; Data.target_mean data]) in *.
  destruct (final_target_cases data estimates) as [[Hne E]|[Hnil E]].
  - assert (Hmean : ft = Py.sum (valid_vals estimates)
                         / Py.len (valid_vals estimates)) by congruence.
    split; [| split]; [| done |].
    + intros _. rewrite Hmean, valid_vals_strictly_positive. apply sum_len_mean.
    + intros Heps Hebitda Htm. exfalso. apply Hne.
      destruct (v_ev_cases data) as [(? & ? & _)|[_ E0]]; [tauto |].
      assert (ev = 0) as -> by congruence.
      destruct (v_dcf_cases data p (wacc_val data)) as [[? _]|[_ E']]; [lra |].
      assert (dcf = 0) as -> by congruence.
      apply valid_vals_nil. unfold estimates, v_pe.
      rewrite (gt_false (Data.future_eps data) 0) by done.
      intros v [<-|[<-|[<-|[<-|[]]]]]; lra.
  - assert (Hcur : ft = Data.current_price data) by congruence.
    split; [done |]. split; [| done].
    intros _. split; [done |]. by rewrite Htg, Hcp, Hcur.
Qed.

(** C3.  For every snapshot, wacc is max(rf + beta * 0.055, 0.05), where rf is
    0.015 when the currency is TWD and 0.042 otherwise; hence wacc >= 0.05
    for every beta, and beta = -10 with rf = 0.042 gives wacc = 0.05 exactly. *)
Theorem C3_wacc_floor data :
  (Data.currency data = TWD → rf (is_tw data) = 0.015) ∧
  (Data.currency data ≠ TWD → rf (is_tw data) = 0.042) ∧
  wacc_val data == Qmax (rf (is_tw data) + Data.beta data * 0.055) 0.05 ∧
  0.05 <= wacc_val data ∧
  (Data.currency data ≠ TWD → Data.beta data == -10 → wacc_val data = 0.05).
Proof.
  unfold is_tw. repeat split.
  - intros E. by rewrite bool_decide_eq_true_2.
  - intros E. by rewrite bool_decide_eq_false_2.
  - apply max_Qmax.
  - apply max_ge_r.
  - intros E Hb. unfold wacc_val, is_tw, Py.max.
    rewrite bool_decide_eq_false_2 by done. unfold rf.
    rewrite gt_true; [done |]. rewrite Hb. reflexivity.
Qed.

(** C4.  For every snapshot, the EV/EBITDA estimate is
    (ebitda * 12 - totalDebt + totalCash) / sharesOutstanding when ebitda > 0
    and sharesOutstanding > 0, and 0 otherwise; the response reports it
    rounded. *)
Theorem C4_ev_estimate data :
  (0 < Data.ebitda data → 0 < Data.shares data →
   v_ev data =
     Return ((Data.ebitda data * 12 - Data.total_debt data + Data.total_cash data)
             / Data.shares data)) ∧
  (¬ (0 < Data.ebitda data ∧ 0 < Data.shares data) → v_ev data = Return 0) ∧
  (∀ industry, ∃ ev r,
     v_ev data = Return ev ∧
     valuation data industry = Return r ∧
     Response.ev r = Py.round2 ev).
Proof.
  repeat split.
  - intros He Hs. destruct (v_ev_cases data) as [(_ & _ & E)|[? _]]; tauto.
  - intros Hn. destruct (v_ev_cases data) as [(? & ? & _)|[_ E]]; tauto.
  - intros industry.
    destruct (valuation_Return data industry)
      as (ev & dcf & ft & r & Hev & _ & _ & Hr & _ & _ & _ & _ & Hrev & _).
    by exists ev, r.
Qed.

(** C5.  For every snapshot and every industry profile, the DCF estimate is
    futureEps * (1 + growth) / max(wacc - growth, 0.015) when futureEps > 0
    and 0 otherwise; the divisor max(wacc - growth, 0.015) is at least 0.015,
    so it is not zero and the division does not raise. *)
Theorem C5_dcf_estimate data (p : Ind.t) :
  let divisor := Py.max (wacc_val data - Ind.growth p) 0.015 in
  divisor == Qmax (wacc_val data - Ind.growth p) 0.015 ∧
  0.015 <= divisor ∧
  ¬ divisor == 0 ∧
  (∀ a, Py.truediv a divisor = Return (a / divisor)) ∧
  (0 < Data.future_eps data →
   v_dcf data p (wacc_val data) =
     Return (Data.future_eps data * (1 + Ind.growth p) / divisor)) ∧
  (¬ 0 < Data.future_eps data → v_dcf data p (wacc_val data) = Return 0).
Proof.
  intros divisor.
  pose proof (dcf_divisor_ge (wacc_val data) (Ind.growth p)) as Hd.
  fold divisor in Hd.
  repeat split.
  - apply max_Qmax.
  - done.
  - lra.
  - intros a. apply truediv_Return. lra.
  - intros He.
    destruct (v_dcf_cases data p (wacc_val data)) as [[_ E]|[? _]]; tauto.
  - intros He.
    destruct (v_dcf_cases data p (wacc_val data)) as [[? _]|[_ E]]; tauto.
Qed.

(** C8.  [evaluate] fails with the 404 [HTTPException] if and only if the
    resolved snapshot is absent or its currentPrice is 0, both for an
    arbitrary resolver result and for the endpoint on any request; it fails
    in no other way, and a snapshot whose currentPrice is 0 gets the very
    outcome of an absent one. *)
Theorem C8_not_found `{Unicode} (yf_info : str → fetch) (ticker industry : str)
    (data : option Data.t) :
  (evaluate_data data industry = Raise (HTTPException 404 not_found_detail)
   ↔ data = None ∨ ∃ d, data = Some d ∧ Data.current_price d == 0) ∧
  (evaluate yf_info ticker industry = Raise (HTTPException 404 not_found_detail)
   ↔ get_stock_data_sync yf_info ticker = None
     ∨ ∃ d, get_stock_data_sync yf_info ticker = Some d
            ∧ Data.current_price d == 0) ∧
  (∀ e, evaluate_data data industry = Raise e
        → e = HTTPException 404 not_found_detail) ∧
  (∀ d, Data.current_price d == 0 →
        evaluate_data (Some d) industry = evaluate_data None industry).
Proof.
  assert (Hiff : ∀ data,
    evaluate_data data industry = Raise (HTTPException 404 not_found_detail)
    ↔ data = None ∨ ∃ d, data = Some d ∧ Data.current_price d == 0).
  { intros [d|]; simpl.
    - destruct (eqbP (Data.current_price d) 0) as [Hz|Hnz].
      + split; [| done]. intros _. right. by exists d.
      + destruct (valuation_Return d industry)
          as (? & ? & ? & r & _ & _ & _ & -> & _).
        split; [done |]. intros [?|(d' & [= <-] & Hz)]; [done | tauto].
    - split; [by left | done]. }
  repeat split; try apply Hiff.
  - intros e. destruct data as [d|]; simpl; [| congruence].
    destruct (eqbP (Data.current_price d) 0); [congruence |].
    destruct (valuation_Return d industry)
      as (? & ? & ? & r & _ & _ & _ & -> & _).
    done.
  - intros d Hz. simpl. by destruct (eqbP (Data.current_price d) 0).
Qed.

Lemma Qdiv_neg a b : a < 0 → 0 < b → a / b < 0.
Proof. intros Ha Hb. apply Qlt_shift_div_r; [done | lra]. Qed.

Lemma Qdiv_pos a b : 0 < a → 0 < b → 0 < a / b.
Proof. intros Ha Hb. apply Qlt_shift_div_l; [done | lra]. Qed.

Lemma valid_vals_drop vs1 v vs2 :
  ¬ 0 < v → valid_vals (vs1 ++ v :: vs2) = valid_vals (vs1 ++ vs2).
Proof.
  intros Hv. unfold valid_vals. rewrite !List.filter_app. simpl.
  by rewrite gt_false by lra.
Qed.

(** C10.  For every snapshot with currentPrice > 0 and every industry label,
    [evaluate] returns, and the blended target before rounding is strictly
    positive: it is the mean of the strictly positive estimates, all of them
    strictly positive, when there is one, and currentPrice otherwise.  The
    response reports the EV/EBITDA estimate rounded, whatever its sign; an
    estimate that is not strictly positive leaves the blended target what
    the three other estimates make it, and the estimate is negative when
    totalDebt exceeds ebitda * 12 + totalCash with ebitda and shares
    positive. *)
Theorem C10_target_positive data industry :
  0 < Data.current_price data →
  let p := ind (is_tw data) industry in
  ∃ ev dcf ft r,
    v_ev data = Return ev ∧
    v_dcf data p (wacc_val data) = Return dcf ∧
    let estimates := [v_pe data p; ev; dcf; Data.target_mean data] in
    final_target data (valid_vals estimates) = Return ft ∧
    evaluate_data (Some data) industry = Return r ∧
    Response.target r = Py.round2 ft ∧
    Response.ev r = Py.round2 ev ∧
    0 < ft ∧
    (strictly_positive estimates ≠ [] →
       Forall (λ v, 0 < v) (strictly_positive estimates) ∧
       ft == mean (strictly_positive estimates)) ∧
    (strictly_positive estimates = [] → ft = Data.current_price data) ∧
    (¬ 0 < ev →
       final_target data (valid_vals [v_pe data p; dcf; Data.target_mean data])
       = Return ft) ∧
    (0 < Data.ebitda data → 0 < Data.shares data →
     Data.ebitda data * 12 + Data.total_cash data < Data.total_debt data →
     ev < 0).
Proof.
  intros Hprice p.
  destruct (valuation_Return data industry)
    as (ev & dcf & ft & r & Hev & Hdcf & Hft & Hr & _ & Htg & _ & _ & Hrev & _).
  fold p in Hdcf, Hft.
  exists ev, dcf, ft, r. cbv zeta.
  rewrite evaluate_data_Some by lra.
  repeat (split; [assumption |]).
  rewrite <- valid_vals_strictly_positive.
  set (estimates := [v_pe data p; ev; dcf; Data.target_mean data]) in *.
  assert (Hcases :
    valid_vals estimates ≠ [] ∧ ft = Py.sum (valid_vals estimates)
                                      / Py.len (valid_vals estimates)
    ∨ valid_vals estimates = [] ∧ ft = Data.current_price data).
  { destruct (final_target_cases data estimates) as [[Hne E]|[Hnil E]];
      [left | right]; (split; [done | congruence]). }
  repeat split.
  - destruct Hcases as [[Hne ->]|[_ ->]]; [| done].
    apply Qdiv_pos; [| by apply len_pos].
    apply sum_pos; [apply valid_vals_pos | done].
  - apply valid_vals_pos.
  - destruct Hcases as [[_ ->]|[Hnil _]]; [| done].
    rewrite valid_vals_strictly_positive. apply sum_len_mean.
  - intros Hnil. by destruct Hcases as [[Hne _]|[_ ->]].
  - intros Hnp. rewrite <- Hft. f_equal.
    symmetry. by apply (valid_vals_drop [v_pe data p] ev).
  - intros He Hs Hdebt.
    destruct (v_ev_cases data) as [(_ & _ & E)|[? _]]; [| tauto].
    assert (ev = (Data.ebitda data * 12 - Data.total_debt data
                  + Data.total_cash data) / Data.shares data) as ->
      by congruence.
    apply Qdiv_neg; [lra | done].
Qed.

(** ** Properties of the resolver *)

Section ResolverFacts.
Context `{Unicode}.
Variable yf_info : str → fetch.

(** A candidate is accepted exactly when its read returns a record with
    one of the two price keys. *)
Lemma attempt_Accepted t info :
  attempt yf_info t = Accepted info ↔ usable (yf_info t) info.
Proof.
  unfold attempt, has_price, usable. destruct (yf_info t) as [| |[i|]].
  - split; [done | by intros [? _]].
  - split; [done | by intros [? _]].
  - destruct (bool_decide (is_Some (Info.currentPrice i))) eqn:E1;
      [| destruct (bool_decide (is_Some (Info.regularMarketPrice i))) eqn:E2];
      simpl.
    + apply bool_decide_eq_true in E1.
      split; [intros [= <-]; auto | intros [[= <-] _]; done].
    + apply bool_decide_eq_true in E2.
      split; [intros [= <-]; auto | intros [[= <-] _]; done].
    + apply bool_decide_eq_false in E1, E2.
      split; [done | intros [[= <-] [?|?]]; done].
  - split; [done | by intros [? _]].
Qed.

(** A candidate is skipped exactly when its read is a miss. *)
Lemma attempt_Skipped t : attempt yf_info t = Skipped ↔ miss (yf_info t).
Proof.
  unfold attempt, has_price, miss. destruct (yf_info t) as [| |[i|]].
  - split; [done | by intros [?|[?|(? & ? & _)]]].
  - split; [by left | done].
  - destruct (Info.currentPrice i) as [x|] eqn:E1;
      [| destruct (Info.regularMarketPrice i) as [y|] eqn:E2]; simpl.
    + split; [done |]. intros [?|[?|(i' & [= <-] & E & _)]]; congruence.
    + split; [done |]. intros [?|[?|(i' & [= <-] & _ & E)]]; congruence.
    + split; [| done]. intros _. right. right. by exists i.
  - split; [by right; left | done].
Qed.

(** The run is cut short exactly when building the handle raises. *)
Lemma attempt_Aborted t : attempt yf_info t = Aborted ↔ yf_info t = TickerRaises.
Proof.
  unfold attempt. destruct (yf_info t) as [| |[i|]]; [done | done | | done].
  by destruct (has_price i).
Qed.

Lemma try_tickers_skip t ts :
  attempt yf_info t = Skipped →
  try_tickers yf_info (t :: ts)
  = mk_run (t :: run_tried (try_tickers yf_info ts))
           (t :: run_queried (try_tickers yf_info ts))
           (run_result (try_tickers yf_info ts)).
Proof. intros E. simpl. by rewrite E. Qed.

Lemma try_tickers_stop t ts info :
  attempt yf_info t = Accepted info →
  try_tickers yf_info (t :: ts) = mk_run [t] [t] (Found info t).
Proof. intros E. simpl. by rewrite E. Qed.

Lemma try_tickers_abort t ts :
  attempt yf_info t = Aborted →
  try_tickers yf_info (t :: ts) = mk_run [t] [] Handled.
Proof. intros E. simpl. by rewrite E. Qed.

(** The three ways a run can go. *)
Lemma try_tickers_first before c after info :
  Forall (λ t, attempt yf_info t = Skipped) before →
  attempt yf_info c = Accepted info →
  try_tickers yf_info (before ++ c :: after)
  = mk_run (before ++ [c]) (before ++ [c]) (Found info c).
Proof.
  intros Hb Hc. induction Hb as [|t before Ht _ IH]; simpl.
  - by rewrite Hc.
  - by rewrite Ht, IH.
Qed.

Lemma try_tickers_cut before c after :
  Forall (λ t, attempt yf_info t = Skipped) before →
  attempt yf_info c = Aborted →
  try_tickers yf_info (before ++ c :: after)
  = mk_run (before ++ [c]) before Handled.
Proof.
  intros Hb Hc. induction Hb as [|t before Ht _ IH]; simpl.
  - by rewrite Hc.
  - by rewrite Ht, IH.
Qed.

Lemma try_tickers_all ts :
  Forall (λ t, attempt yf_info t = Skipped) ts →
  try_tickers yf_info ts = mk_run ts ts NotFound.
Proof.
  induction 1 as [|t ts Ht _ IH]; simpl; [done |]. by rewrite Ht, IH.
Qed.

(** Every run is one of the three. *)
Lemma try_tickers_spec ts :
  (∃ before c after info,
     ts = before ++ c :: after ∧
     Forall (λ t, attempt yf_info t = Skipped) before ∧
     attempt yf_info c = Accepted info ∧
     try_tickers yf_info ts = mk_run (before ++ [c]) (before ++ [c]) (Found info c))
  ∨ (∃ before c after,
       ts = before ++ c :: after ∧
       Forall (λ t, attempt yf_info t = Skipped) before ∧
       attempt yf_info c = Aborted ∧
       try_tickers yf_info ts = mk_run (before ++ [c]) before Handled)
  ∨ (Forall (λ t, attempt yf_info t = Skipped) ts ∧
     try_tickers yf_info ts = mk_run ts ts NotFound).
Proof.
  induction ts as [|t ts IH]; [right; right; by split |].
  destruct (attempt yf_info t) as [info| |] eqn:E.
  - left. exists [], t, ts, info. repeat split; [constructor | done |].
    by apply try_tickers_stop.
  - rewrite (try_tickers_skip _ _ E).
    destruct IH as [(before & c & after & info & -> & Hb & Hc & ->)
                   |[(before & c & after & -> & Hb & Hc & ->)|[Hall ->]]].
    + left. exists (t :: before), c, after, info.
      repeat split; [by constructor | done].
    + right; left. exists (t :: before), c, after.
      repeat split; [by constructor | done].
    + right; right. split; [by constructor | done].
  - right; left. exists [], t, ts. repeat split; [constructor | done |].
    by apply try_tickers_abort.
Qed.

(** C6.  When the trimmed and upper-cased input is all digits, the
    candidates are the input with the primary suffix .TW and then with the
    secondary suffix .TWO, tried in that order.  The resolver stops at the
    primary candidate when its record has a price key, and answers with that
    record; when the read of the primary candidate is a miss (it raises,
    returns nothing, or returns a record with neither price key) the
    resolver goes on to the secondary candidate, and stops there with its
    record when that has a price key.  When the normalized input is not
    numeric, exactly one candidate is tried, the normalized input itself,
    without suffix. *)
Theorem C6_candidate_order (ticker_str : str) :
  let raw_ticker := upper (strip ticker_str) in
  let primary := raw_ticker ++ dot_TW in
  let secondary := raw_ticker ++ dot_TWO in
  (isdigit raw_ticker = true →
     search_tickers raw_ticker = [primary; secondary] ∧
     (tried yf_info ticker_str = [primary]
      ∨ tried yf_info ticker_str = [primary; secondary]) ∧
     (∀ info,
        usable (yf_info primary) info →
        tried yf_info ticker_str = [primary] ∧
        queried yf_info ticker_str = [primary] ∧
        get_stock_data_sync yf_info ticker_str = Some (snapshot info primary)) ∧
     (miss (yf_info primary) →
        tried yf_info ticker_str = [primary; secondary] ∧
        (∀ info,
           usable (yf_info secondary) info →
           queried yf_info ticker_str = [primary; secondary] ∧
           get_stock_data_sync yf_info ticker_str
           = Some (snapshot info secondary)) ∧
        (miss (yf_info secondary) →
           queried yf_info ticker_str = [primary; secondary] ∧
           get_stock_data_sync yf_info ticker_str = None))) ∧
  (isdigit raw_ticker = false →
     search_tickers raw_ticker = [raw_ticker] ∧
     tried yf_info ticker_str = [raw_ticker] ∧
     (∀ info,
        usable (yf_info raw_ticker) info →
        queried yf_info ticker_str = [raw_ticker] ∧
        get_stock_data_sync yf_info ticker_str
        = Some (snapshot info raw_ticker)) ∧
     (miss (yf_info raw_ticker) →
        queried yf_info ticker_str = [raw_ticker] ∧
        get_stock_data_sync yf_info ticker_str = None)).
Proof.
  intros raw_ticker primary secondary.
  unfold tried, queried, get_stock_data_sync, search_tickers. fold raw_ticker.
  split; intros ->; fold primary secondary.
  - split; [done |]. split; [| split].
    + simpl. destruct (attempt yf_info primary); simpl; [by left | | by left].
      destruct (attempt yf_info secondary); by right.
    + intros info Hu. apply attempt_Accepted in Hu.
      by rewrite (try_tickers_stop _ _ _ Hu).
    + intros Hm. apply attempt_Skipped in Hm.
      rewrite (try_tickers_skip _ _ Hm). split; [| split].
      * simpl. by destruct (attempt yf_info secondary).
      * intros info Hu. apply attempt_Accepted in Hu.
        by rewrite (try_tickers_stop _ _ _ Hu).
      * intros Hm2. apply attempt_Skipped in Hm2.
        by rewrite (try_tickers_skip _ _ Hm2).
  - split; [done |]. split; [| split].
    + simpl. by destruct (attempt yf_info raw_ticker).
    + intros info Hu. apply attempt_Accepted in Hu.
      by rewrite (try_tickers_stop _ _ _ Hu).
    + intros Hm. apply attempt_Skipped in Hm.
      by rewrite (try_tickers_skip _ _ Hm).
Qed.

End ResolverFacts.

(** ** Rounding respects equality of numbers *)

#[global] Instance round_half_even_proper :
  Proper (Qeq ==> eq) Py.round_half_even.
Proof.
  intros x y E. unfold Py.round_half_even.
  assert (Hf : Qfloor x = Qfloor y) by by rewrite E.
  rewrite Hf. cbv zeta. by rewrite E.
Qed.

(** ** The properties at sample inputs *)

Section Samples.
#[local] Existing Instance ascii_tables.

Lemma C2_witness :
  0 < Data.current_price tw_example ∧
  ∃ ft r,
    evaluate_data (Some tw_example) label_financial = Return r ∧
    Response.target r = Py.round2 ft ∧
    ft == mean [100; 204].
Proof.
  split; [reflexivity |].
  destruct (C2_blended_target tw_example label_financial eq_refl)
    as (ev & dcf & ft & r & Hev & Hdcf & Hft & Hr & Htg & Hmean & _).
  exists ft, r. split; [exact Hr |]. split; [exact Htg |].
  vm_compute in Hev. injection Hev as <-.
  vm_compute in Hdcf. injection Hdcf as <-.
  rewrite Hmean by (intros E; vm_compute in E; discriminate E).
  reflexivity.
Defined.

Lemma C3_witness :
  Data.currency indebted ≠ TWD ∧
  Data.beta indebted == -10 ∧
  rf (is_tw indebted) = 0.042 ∧
  wacc_val indebted = 0.05.
Proof.
  destruct (C3_wacc_floor indebted) as (_ & Hrf & _ & _ & Hfloor).
  assert (Hcur : Data.currency indebted ≠ TWD) by (vm_compute; discriminate).
  split; [exact Hcur |]. split; [reflexivity |].
  split; [exact (Hrf Hcur) | apply (Hfloor Hcur); reflexivity].
Defined.

Lemma C4_witness :
  (0 < Data.ebitda indebted ∧ 0 < Data.shares indebted ∧
   v_ev indebted = Return ((1 * 12 - 100 + 0) / 1)) ∧
  (¬ (0 < Data.ebitda tw_example ∧ 0 < Data.shares tw_example) ∧
   v_ev tw_example = Return 0).
Proof.
  split.
  - destruct (C4_ev_estimate indebted) as (Hpos & _ & _).
    split; [reflexivity |]. split; [reflexivity |].
    apply Hpos; reflexivity.
  - destruct (C4_ev_estimate tw_example) as (_ & Hzero & _).
    assert (Hn : ¬ (0 < Data.ebitda tw_example ∧ 0 < Data.shares tw_example))
      by (intros [He _]; vm_compute in He; discriminate He).
    split; [exact Hn | exact (Hzero Hn)].
Defined.

(** A profile whose growth equals the wacc of the worked example. *)
Lemma C5_witness :
  0 < Data.future_eps tw_example ∧
  v_dcf tw_example (Ind.mk 10 0.07) (wacc_val tw_example)
  = Return (10 * (1 + 0.07) / Py.max (wacc_val tw_example - 0.07) 0.015) ∧
  ¬ 0 < Data.future_eps indebted ∧
  v_dcf indebted (Ind.mk 10 0.07) (wacc_val indebted) = Return 0.
Proof.
  destruct (C5_dcf_estimate tw_example (Ind.mk 10 0.07)) as (_ & _ & _ & _ & Hpos & _).
  destruct (C5_dcf_estimate indebted (Ind.mk 10 0.07)) as (_ & _ & _ & _ & _ & Hzero).
  assert (Hn : ¬ 0 < Data.future_eps indebted)
    by (intros He; vm_compute in He; discriminate He).
  split; [reflexivity |]. split; [apply Hpos; reflexivity |].
  split; [exact Hn | exact (Hzero Hn)].
Defined.

Lemma C6_witness :
  (* numeric, the primary record has a price key *)
  (isdigit (upper (strip ticker_2330)) = true ∧
   usable (flat_source s_2330_TW) (priced_info 600) ∧
   tried flat_source ticker_2330 = [s_2330_TW]) ∧
  (* numeric, the primary record has no price key *)
  (miss (priceless_primary_source s_2330_TW) ∧
   tried priceless_primary_source ticker_2330 = [s_2330_TW; s_2330_TWO] ∧
   get_stock_data_sync priceless_primary_source ticker_2330
   = Some (snapshot (priced_info 600) s_2330_TWO)) ∧
  (* numeric, the primary read raises *)
  (miss (otc_source s_2330_TW) ∧
   tried otc_source ticker_2330 = [s_2330_TW; s_2330_TWO]) ∧
  (* not numeric *)
  (isdigit (upper (strip ticker_aapl)) = false ∧
   tried otc_source ticker_aapl = [s_AAPL]).
Proof.
  assert (Hu : ∀ t : str, usable (flat_source t) (priced_info 600))
    by (intros t; split; [reflexivity | right; by eexists]).
  split; [| split; [| split]].
  - split; [reflexivity |]. split; [exact (Hu s_2330_TW) |].
    destruct (C6_candidate_order flat_source ticker_2330) as [Hnum _].
    destruct (Hnum eq_refl) as (_ & _ & Hstop & _).
    destruct (Hstop (priced_info 600) (Hu s_2330_TW)) as [Ht _]. exact Ht.
  - assert (Hm : miss (priceless_primary_source s_2330_TW))
      by (right; right; eexists; repeat split).
    split; [exact Hm |].
    destruct (C6_candidate_order priceless_primary_source ticker_2330)
      as [Hnum _].
    destruct (Hnum eq_refl) as (_ & _ & _ & Hnext).
    destruct (Hnext Hm) as (Ht & Hsecond & _).
    split; [exact Ht |].
    destruct (Hsecond (priced_info 600) (Hu s_2330_TWO)) as [_ Hd]. exact Hd.
  - assert (Hm : miss (otc_source s_2330_TW)) by (by left).
    split; [exact Hm |].
    destruct (C6_candidate_order otc_source ticker_2330) as [Hnum _].
    destruct (Hnum eq_refl) as (_ & _ & _ & Hnext).
    destruct (Hnext Hm) as (Ht & _). exact Ht.
  - split; [reflexivity |].
    destruct (C6_candidate_order otc_source ticker_aapl) as [_ Hone].
    destruct (Hone eq_refl) as (_ & Ht & _). exact Ht.
Defined.



Lemma C8_witness :
  Data.current_price unpriced == 0 ∧
  evaluate_data (Some unpriced) label_technology = Raise (HTTPException 404 not_found_detail) ∧
  evaluate otc_source [] label_technology = Raise (HTTPException 404 not_found_detail).
Proof.
  destruct (C8_not_found otc_source [] label_technology (Some unpriced))
    as ([_ Hdata] & [_ Hreq] & _).
  split; [reflexivity |]. split.
  - apply Hdata. right. exists unpriced. split; reflexivity.
  - apply Hreq. left. reflexivity.
Defined.

Lemma C10_witness :
  0 < Data.current_price indebted ∧
  ∃ ev ft r,
    v_ev indebted = Return ev ∧ ev < 0 ∧
    evaluate_data (Some indebted) label_technology = Return r ∧
    Response.ev r = Py.round2 ev ∧
    Response.target r = Py.round2 ft ∧
    ft = Data.current_price indebted ∧
    0 < ft.
Proof.
  split; [reflexivity |].
  destruct (C10_target_positive indebted label_technology eq_refl)
    as (ev & dcf & ft & r & Hev & Hdcf & Hft & Hr & Htg & Hrev & Hpos & _ & Hnil & _ & Hneg).
  exists ev, ft, r.
  split; [exact Hev |]. split; [apply Hneg; reflexivity |].
  split; [exact Hr |]. split; [exact Hrev |]. split; [exact Htg |].
  split; [| exact Hpos].
  apply Hnil. vm_compute in Hev. injection Hev as <-.
  vm_compute in Hdcf. injection Hdcf as <-. reflexivity.
Defined.
End Samples.

(** ** Further properties of the resolver *)

Section TextFacts.
Context `{Unicode}.

Lemma lstrip_blank l s : blank l → lstrip (l ++ s) = lstrip s.
Proof.
  induction 1 as [|c l Hc _ IH]; simpl; [done |]. by rewrite Hc.
Qed.

Lemma lstrip_app s r :
  lstrip (s ++ r) = match lstrip s with [] => lstrip r | _ => lstrip s ++ r end.
Proof.
  induction s as [|c s IH]; simpl; [done |].
  destruct (isspace_cp c); done.
Qed.

Lemma rstrip_blank s r : blank r → rstrip (s ++ r) = rstrip s.
Proof.
  intros Hr. unfold rstrip. rewrite rev_app_distr.
  rewrite lstrip_blank; [done |]. by apply Forall_rev.
Qed.

Lemma strip_blank l s r : blank l → blank r → strip (l ++ s ++ r) = strip s.
Proof.
  intros Hl Hr. unfold strip. rewrite lstrip_blank by done.
  rewrite lstrip_app. destruct (lstrip s) as [|c s'] eqn:E.
  - rewrite <- (app_nil_r r), lstrip_blank by done. done.
  - by rewrite rstrip_blank.
Qed.

Lemma strip_all_blank s : blank s → strip s = [].
Proof.
  intros Hs. unfold strip.
  rewrite <- (app_nil_r s), lstrip_blank by done. done.
Qed.
End TextFacts.

Section ResolverMore.
Context `{Unicode}.
Variable yf_info : str → fetch.

Lemma TW_TWO_distinct raw : raw ++ dot_TW ≠ raw ++ dot_TWO.
Proof. intros E. by apply app_inv_head in E. Qed.

(** X1.  White space around the ticker does not matter: a ticker padded
    with white space on either side makes the resolver try and query the
    same candidates and return the same snapshot, and gives the endpoint the
    same outcome, as the ticker itself. *)
Theorem X1_padding_ignored (l s r : str) :
  blank l → blank r →
  tried yf_info (l ++ s ++ r) = tried yf_info s ∧
  queried yf_info (l ++ s ++ r) = queried yf_info s ∧
  get_stock_data_sync yf_info (l ++ s ++ r) = get_stock_data_sync yf_info s ∧
  ∀ industry,
    evaluate yf_info (l ++ s ++ r) industry = evaluate yf_info s industry.
Proof.
  intros Hl Hr.
  unfold evaluate, tried, queried, get_stock_data_sync.
  by rewrite strip_blank.
Qed.

(** X2.  One resolution tries at least one and at most two candidates: the
    tried candidates are an initial segment of the candidate list, starting
    with its first element, and none is tried twice.  It reads at most two
    records: the queried candidates are the tried ones, but for the last
    when building its handle raised. *)
Theorem X2_query_bound (ticker_str : str) :
  let candidates := search_tickers (upper (strip ticker_str)) in
  let t := tried yf_info ticker_str in
  let q := queried yf_info ticker_str in
  (1 ≤ length t ≤ 2)%nat ∧
  t `prefix_of` candidates ∧
  head t = head candidates ∧
  NoDup t ∧
  (q = t ∨ ∃ c, t = q ++ [c] ∧ yf_info c = TickerRaises).
Proof.
  intros candidates t q. unfold t, q, tried, queried. fold candidates.
  assert (Hcand : (1 ≤ length candidates ≤ 2)%nat ∧ NoDup candidates
                  ∧ candidates ≠ []).
  { unfold candidates, search_tickers.
    destruct (isdigit (upper (strip ticker_str))); simpl.
    - split; [lia |]. split; [| done]. apply NoDup_cons. split.
      + rewrite list_elem_of_singleton. apply TW_TWO_distinct.
      + apply NoDup_singleton.
    - split; [lia |]. split; [apply NoDup_singleton | done]. }
  destruct Hcand as (Hlen & Hnd & Hne).
  assert (Hpre : ∀ before c after,
            candidates = before ++ c :: after →
            (1 ≤ length (before ++ [c]) ≤ 2)%nat
            ∧ (before ++ [c]) `prefix_of` candidates
            ∧ head (before ++ [c]) = head candidates
            ∧ NoDup (before ++ [c])).
  { intros before c after E. rewrite E in Hlen, Hnd |- *.
    rewrite length_app in Hlen |- *. simpl in *.
    split; [lia |]. split; [exists after; by rewrite <- app_assoc |].
    split; [by destruct before |].
    rewrite cons_middle, app_assoc in Hnd.
    by apply NoDup_app in Hnd as [? _]. }
  destruct (try_tickers_spec yf_info candidates)
    as [(before & c & after & info & Hc & _ & _ & Hrun)
       |[(before & c & after & Hc & _ & Ha & Hrun)|[_ Hrun]]];
    rewrite Hrun; simpl.
  - destruct (Hpre _ _ _ Hc) as (? & ? & ? & ?).
    do 4 (split; [done |]). by left.
  - destruct (Hpre _ _ _ Hc) as (? & ? & ? & ?).
    do 4 (split; [done |]).
    right. exists c. split; [done | by apply attempt_Aborted].
  - do 4 (split; [done |]). by left.
Qed.

(** X3.  First match wins: the resolver returns a snapshot exactly when some
    candidate is accepted after skipped ones only, and the snapshot is then
    built from that first accepted candidate, which is the last one tried
    and queried; later candidates are not consulted. *)
Theorem X3_first_match (ticker_str : str) (data : Data.t) :
  get_stock_data_sync yf_info ticker_str = Some data
  ↔ ∃ before c after info,
      search_tickers (upper (strip ticker_str)) = before ++ c :: after ∧
      Forall (λ t, attempt yf_info t = Skipped) before ∧
      attempt yf_info c = Accepted info ∧
      tried yf_info ticker_str = before ++ [c] ∧
      queried yf_info ticker_str = before ++ [c] ∧
      data = snapshot info c.
Proof.
  unfold get_stock_data_sync, tried, queried.
  set (candidates := search_tickers (upper (strip ticker_str))).
  split.
  - destruct (try_tickers_spec yf_info candidates)
      as [(before & c & after & info & Hc & Hb & Ha & Hrun)
         |[(before & c & after & Hc & Hb & Ha & Hrun)|[Hall Hrun]]];
      rewrite Hrun; simpl; [| done | done].
    intros [= <-]. by exists before, c, after, info.
  - intros (before & c & after & info & E & Hb & Hc & _ & _ & ->).
    by rewrite E, (try_tickers_first _ _ _ _ _ Hb Hc).
Qed.

(** X4.  An empty or all-white-space ticker is not rejected up front: it
    normalizes to the empty string, which is not numeric, so the only
    candidate tried is the empty symbol.  When building its handle raises,
    no record is read and the resolver answers not-found from the outer
    handler; otherwise its record is read.  The endpoint answers 404 unless
    the source has a record with a price key under the empty symbol. *)
Theorem X4_blank_ticker (ticker_str : str) :
  blank ticker_str →
  search_tickers (upper (strip ticker_str)) = [[]] ∧
  tried yf_info ticker_str = [[]] ∧
  (yf_info [] = TickerRaises →
   queried yf_info ticker_str = [] ∧
   get_stock_data_sync yf_info ticker_str = None) ∧
  (yf_info [] ≠ TickerRaises → queried yf_info ticker_str = [[]]) ∧
  ((∀ info, ¬ usable (yf_info []) info) →
   ∀ industry,
     evaluate yf_info ticker_str industry
     = Raise (HTTPException 404 not_found_detail)).
Proof.
  intros Hb. unfold evaluate, tried, queried, get_stock_data_sync.
  rewrite strip_all_blank by done.
  change (search_tickers (upper [])) with [[] : str].
  split; [done |].
  cbn [try_tickers].
  pose proof (attempt_Accepted yf_info []) as Hacc.
  pose proof (attempt_Aborted yf_info []) as Habort.
  destruct (attempt yf_info []) as [info| |];
    cbn [run_tried run_queried run_result];
    (split; [done |]); (split; [| split]).
  - intros E. by apply Habort in E.
  - done.
  - intros Hno. destruct (Hno info). by apply Hacc.
  - intros E. by apply Habort in E.
  - done.
  - done.
  - done.
  - intros Hne. destruct Hne. by apply Habort.
  - done.
Qed.
End ResolverMore.

(** ** Further properties of the snapshot *)

Lemma get_or_nonzero a b x : a = Some x → ¬ x == 0 → get_or a b = x.
Proof. intros -> Hx. unfold get_or. by destruct (eqbP x 0). Qed.

Lemma get_or_passed a b : absent_or_zero a → get_or a b = b.
Proof.
  destruct a as [x|]; simpl; [| done]. intros Hx. by destruct (eqbP x 0).
Qed.

Lemma get_or_zero a b : get_or a b == 0 ↔ absent_or_zero a ∧ b == 0.
Proof.
  destruct a as [x|]; simpl.
  - destruct (eqbP x 0); [tauto |]. split; [done | tauto].
  - tauto.
Qed.

Lemma default_zero (o : option Q) : default 0 o == 0 ↔ absent_or_zero o.
Proof. destruct o; simpl; [done |]. split; [done | reflexivity]. Qed.

Section SnapshotMore.
Context `{Unicode}.

(** X5.  The price of the snapshot is the record's currentPrice unless that
    key is absent or zero, and then its regularMarketPrice, 0 if absent.  So
    [evaluate] answers 404 for an accepted record exactly when each of the two
    price keys is absent or zero: having a price key makes a record accepted,
    not priced. *)
Theorem X5_price_fallback (info : Info.t) (final_ticker industry : str) :
  let data := snapshot info final_ticker in
  (∀ x, Info.currentPrice info = Some x → ¬ x == 0 →
        Data.current_price data = x) ∧
  (absent_or_zero (Info.currentPrice info) →
   Data.current_price data = default 0 (Info.regularMarketPrice info)) ∧
  (evaluate_data (Some data) industry
   = Raise (HTTPException 404 not_found_detail)
   ↔ absent_or_zero (Info.currentPrice info)
     ∧ absent_or_zero (Info.regularMarketPrice info)).
Proof.
  intros data. split; [| split].
  - intros x E Hx. by apply get_or_nonzero.
  - intros Ha. by apply get_or_passed.
  - assert (Hz : Data.current_price data == 0
                 ↔ absent_or_zero (Info.currentPrice info)
                   ∧ absent_or_zero (Info.regularMarketPrice info))
      by (unfold data; simpl; by rewrite get_or_zero, default_zero).
    rewrite <- Hz. unfold evaluate_data. destruct (eqbP (Data.current_price data) 0); [done |].
    destruct (valuation_Return data industry)
      as (? & ? & ? & r & _ & _ & _ & -> & _).
    done.
Qed.

(** X6.  The earnings of the snapshot are the record's forwardEps, positive
    or negative, unless that key is absent or zero, and then its
    trailingEps, 0 if absent.  A positive forwardEps gives the P/E estimate
    forwardEps times the multiple; a negative forwardEps is kept, and
    switches the P/E and DCF estimates off, whatever the trailingEps. *)
Theorem X6_eps_fallback (info : Info.t) (final_ticker : str) (p : Ind.t) :
  let data := snapshot info final_ticker in
  (∀ x, Info.forwardEps info = Some x → ¬ x == 0 →
        Data.future_eps data = x) ∧
  (absent_or_zero (Info.forwardEps info) →
   Data.future_eps data = default 0 (Info.trailingEps info)) ∧
  (∀ x, Info.forwardEps info = Some x → 0 < x →
        v_pe data p = x * Ind.pe p) ∧
  (∀ x, Info.forwardEps info = Some x → x < 0 →
        Data.future_eps data = x ∧
        v_pe data p = 0 ∧
        ∀ w, v_dcf data p w = Return 0).
Proof.
  intros data.
  assert (Hkeep : ∀ x, Info.forwardEps info = Some x → ¬ x == 0 →
                       Data.future_eps data = x)
    by (intros x E Hx; by apply get_or_nonzero).
  split; [done |]. split; [| split].
  - intros Ha. by apply get_or_passed.
  - intros x E Hx. unfold v_pe. rewrite (Hkeep x E) by lra.
    by rewrite gt_true.
  - intros x E Hx. split; [apply Hkeep; [done | lra] |].
    unfold v_pe, v_dcf. rewrite (Hkeep x E) by lra.
    by rewrite gt_false by lra.
Qed.

(** X7.  A record without a beta key is valued with beta 1.0: wacc is 0.07
    when the record's currency is TWD and 0.097 otherwise, a record without
    a currency key counting as USD. *)
Theorem X7_missing_beta (info : Info.t) (final_ticker : str) :
  Info.beta info = None →
  let data := snapshot info final_ticker in
  (Info.currency info = Some TWD → wacc_val data == 0.07) ∧
  (Info.currency info ≠ Some TWD → wacc_val data == 0.097).
Proof.
  intros Hb data. unfold wacc_val, is_tw. simpl. rewrite Hb. simpl.
  split; intros Hc.
  - rewrite Hc. reflexivity.
  - rewrite bool_decide_eq_false_2; [reflexivity |].
    destruct (Info.currency info) as [c|]; simpl; [congruence | done].
Qed.

(** X8.  A record without a sharesOutstanding key is valued with one share:
    when its ebitda is positive the EV/EBITDA estimate is the whole
    ebitda * 12 - totalDebt + totalCash, absent debt and cash counting as 0. *)
Theorem X8_missing_shares (info : Info.t) (final_ticker : str) (e : Q) :
  Info.sharesOutstanding info = None →
  Info.ebitda info = Some e →
  0 < e →
  ∃ ev,
    v_ev (snapshot info final_ticker) = Return ev ∧
    ev == e * 12 - default 0 (Info.totalDebt info)
          + default 0 (Info.totalCash info).
Proof.
  intros Hs He Hpos. eexists. split.
  - unfold v_ev. simpl. rewrite Hs, He. simpl.
    rewrite gt_true by done. rewrite gt_true by reflexivity. simpl.
    apply truediv_Return. discriminate.
  - field.
Qed.
End SnapshotMore.

(** ** Further properties of the engine *)

(** The entry used for a label is the entry of one of the six keys: of the
    label itself when it is a key, of 科技 otherwise. *)
Lemma ind_key (industry : str) :
  ∃ k, k ∈ ind_keys ∧ ∀ tw, ind tw industry = ind tw k.
Proof.
  destruct (decide (industry ∈ ind_keys)) as [Hin|Hnot].
  - by exists industry.
  - exists label_technology. split; [by left |].
    intros tw. by apply ind_unrecognized.
Qed.

(** X9.  Whatever the label and the market, the entry used has a
    price-earnings multiple between 8 and 25 and a growth rate between 0.02
    and 0.04; for every label the domestic multiple is strictly below the
    foreign one while the growth rate is the same on both markets; a label
    that is not one of the six keys gets the entry of 科技. *)
Theorem X9_industry_table (tw : bool) (industry : str) :
  let p := ind tw industry in
  8 <= Ind.pe p ∧ Ind.pe p <= 25 ∧
  0.02 <= Ind.growth p ∧ Ind.growth p <= 0.04 ∧
  Ind.pe (ind true industry) < Ind.pe (ind false industry) ∧
  Ind.growth (ind true industry) = Ind.growth (ind false industry) ∧
  (industry ∉ ind_keys → p = ind tw label_technology).
Proof.
  intros p. unfold p.
  destruct (ind_key industry) as (k & Hk & Hind). rewrite !Hind.
  split; [| split; [| split; [| split; [| split; [| split]]]]];
    try (intros Hnot; rewrite <- Hind; by apply ind_unrecognized);
    unfold ind_keys in Hk;
    repeat (apply elem_of_cons in Hk as [->|Hk]);
    try (by apply elem_of_nil in Hk);
    destruct tw; vm_compute; congruence.
Qed.

Lemma max_le_compat a a' b : a <= a' → Py.max a b <= Py.max a' b.
Proof.
  intros Ha. unfold Py.max. destruct (gtP b a), (gtP b a'); lra.
Qed.

(** X10.  The discount rate grows with beta and with the risk-free rate: on
    one market a larger beta never gives a smaller wacc, and for equal betas
    a TWD snapshot never has a larger wacc than any other snapshot.  The
    floor 0.05 is what wacc is exactly when rf + beta * 0.055 does not
    exceed it; above the floor wacc is rf + beta * 0.055. *)
Theorem X10_wacc_monotone (d1 d2 : Data.t) :
  (is_tw d1 = is_tw d2 → Data.beta d1 <= Data.beta d2 →
   wacc_val d1 <= wacc_val d2) ∧
  (Data.currency d1 = TWD → Data.beta d1 == Data.beta d2 →
   wacc_val d1 <= wacc_val d2) ∧
  (wacc_val d1 == 0.05 ↔ rf (is_tw d1) + Data.beta d1 * 0.055 <= 0.05) ∧
  (0.05 <= rf (is_tw d1) + Data.beta d1 * 0.055 →
   wacc_val d1 = rf (is_tw d1) + Data.beta d1 * 0.055).
Proof.
  unfold wacc_val. split; [| split; [| split]].
  - intros <- Hb. apply max_le_compat. lra.
  - intros Hc Hb. apply max_le_compat.
    unfold is_tw at 1. rewrite bool_decide_eq_true_2 by done.
    destruct (is_tw d2); simpl; lra.
  - unfold Py.max. destruct (gtP 0.05 (rf (is_tw d1) + Data.beta d1 * 0.055));
      split; intros; lra.
  - intros Hge. unfold Py.max. by rewrite gt_false.
Qed.

Lemma Qdiv_le_denominator a m m' : 0 <= a → 0 < m → m <= m' → a / m' <= a / m.
Proof.
  intros Ha Hm Hmm. apply Qle_shift_div_r; [lra |].
  assert (Hy : 0 <= a / m) by (apply Qle_shift_div_l; [done | lra]).
  assert (E : a / m * m == a) by (field; lra).
  nra.
Qed.

(** X11.  The DCF estimate cannot blow up and falls as the discount rate
    rises: for a profile with growth at least -1 (every entry of the table),
    the estimate is never negative, a larger wacc never gives a larger
    estimate, and with futureEps > 0 the estimate is at most
    futureEps * (1 + growth) / 0.015, reached when wacc - growth <= 0.015. *)
Theorem X11_dcf_bounded (data : Data.t) (p : Ind.t) (w w' : Q) :
  -1 <= Ind.growth p →
  w <= w' →
  ∃ x x',
    v_dcf data p w = Return x ∧
    v_dcf data p w' = Return x' ∧
    0 <= x' ∧ x' <= x ∧
    (0 < Data.future_eps data →
     x <= Data.future_eps data * (1 + Ind.growth p) / 0.015 ∧
     (w - Ind.growth p <= 0.015 →
      x == Data.future_eps data * (1 + Ind.growth p) / 0.015)).
Proof.
  intros Hg Hw.
  pose proof (dcf_divisor_ge w (Ind.growth p)) as Hm.
  pose proof (dcf_divisor_ge w' (Ind.growth p)) as Hm'.
  assert (Hmm : Py.max (w - Ind.growth p) 0.015 <= Py.max (w' - Ind.growth p) 0.015)
    by (apply max_le_compat; lra).
  destruct (v_dcf_cases data p w) as [[He E]|[He E]];
    destruct (v_dcf_cases data p w') as [[He' E']|[He' E']]; try tauto;
    rewrite E, E'; do 2 eexists; (split; [done |]); (split; [done |]).
  - assert (Ha : 0 <= Data.future_eps data * (1 + Ind.growth p)) by nra.
    split; [apply Qle_shift_div_l; lra |].
    split; [apply Qdiv_le_denominator; lra |].
    intros _. split.
    + apply Qdiv_le_denominator; [done | reflexivity | done].
    + intros Hfloor.
      assert (Hd : Py.max (w - Ind.growth p) 0.015 == 0.015)
        by (rewrite max_Qmax; apply Q.max_r; lra).
      by rewrite Hd.
  - split; [lra |]. split; [lra |]. tauto.
Qed.

Lemma Qdiv_sign a b : 0 < b → (0 < a / b ↔ 0 < a).
Proof.
  intros Hb. split; [| intros; by apply Qdiv_pos].
  intros Hq. destruct (Qlt_le_dec 0 a) as [|Hle]; [done |].
  assert (a / b <= 0) by (apply Qle_shift_div_r; [done | lra]). lra.
Qed.

(** X12.  The EV/EBITDA estimate is strictly positive, and so enters the
    blend, exactly when ebitda and shares are positive and totalDebt is
    below ebitda * 12 + totalCash. *)
Theorem X12_ev_sign (data : Data.t) (ev : Q) :
  v_ev data = Return ev →
  (0 < ev
   ↔ 0 < Data.ebitda data ∧ 0 < Data.shares data
     ∧ Data.total_debt data < Data.ebitda data * 12 + Data.total_cash data).
Proof.
  intros Hev.
  destruct (v_ev_cases data) as [(He & Hs & E)|[Hn E]];
    rewrite E in Hev; injection Hev as <-.
  - rewrite Qdiv_sign by done. split; [intros; repeat split; lra | intros; lra].
  - split; [lra | tauto].
Qed.

Lemma ind_positive (tw : bool) (industry : str) :
  0 < Ind.pe (ind tw industry) ∧ 0 < 1 + Ind.growth (ind tw industry).
Proof.
  destruct (ind_key industry) as (k & Hk & ->).
  unfold ind_keys in Hk.
  repeat (apply elem_of_cons in Hk as [->|Hk]);
    try (by apply elem_of_nil in Hk);
    destruct tw; by vm_compute.
Qed.

(** X13.  The blend falls back on currentPrice, for want of a strictly
    positive estimate, exactly when futureEps, the EV/EBITDA estimate and
    targetMeanPrice are all at most 0.  With futureEps > 0 the P/E and the
    DCF estimates are both strictly positive, whatever the label, so both
    enter the mean. *)
Theorem X13_fallback_condition (data : Data.t) (industry : str) :
  let p := ind (is_tw data) industry in
  ∃ ev dcf,
    v_ev data = Return ev ∧
    v_dcf data p (wacc_val data) = Return dcf ∧
    (0 < Data.future_eps data → 0 < v_pe data p ∧ 0 < dcf) ∧
    (valid_vals [v_pe data p; ev; dcf; Data.target_mean data] = []
     ↔ Data.future_eps data <= 0 ∧ ev <= 0 ∧ Data.target_mean data <= 0).
Proof.
  intros p.
  destruct (ind_positive (is_tw data) industry) as [Hpe Hg]. fold p in Hpe, Hg.
  destruct (valuation_Return data industry) as (ev & dcf & _ & _ & Hev & Hdcf & _).
  fold p in Hdcf. exists ev, dcf. split; [done |]. split; [done |].
  pose proof (dcf_divisor_ge (wacc_val data) (Ind.growth p)) as Hm.
  assert (Hpos : 0 < Data.future_eps data → 0 < v_pe data p ∧ 0 < dcf).
  { intros He. unfold v_pe. rewrite gt_true by done. split; [nra |].
    destruct (v_dcf_cases data p (wacc_val data)) as [[_ E]|[? _]]; [| tauto].
    assert (dcf = Data.future_eps data * (1 + Ind.growth p)
                  / Py.max (wacc_val data - Ind.growth p) 0.015) as ->
      by congruence.
    apply Qdiv_pos; [nra | lra]. }
  split; [done |]. rewrite valid_vals_nil. split.
  - intros Hnone.
    assert (Heps : Data.future_eps data <= 0).
    { destruct (Qlt_le_dec 0 (Data.future_eps data)) as [He|]; [| done].
      destruct (Hnone (v_pe data p)); [by left | by apply Hpos]. }
    split; [done |].
    split; apply Qnot_lt_le; apply Hnone; simpl; tauto.
  - intros (Heps & Hevle & Htm) v Hin.
    assert (v_pe data p = 0) as Hpe0 by (unfold v_pe; by rewrite gt_false).
    assert (dcf = 0) as ->.
    { destruct (v_dcf_cases data p (wacc_val data)) as [[? _]|[_ E]]; [lra |].
      congruence. }
    rewrite Hpe0 in Hin.
    destruct Hin as [<-|[<-|[<-|[<-|[]]]]]; lra.
Qed.

Lemma len_cons x (l : list Q) : Py.len (x :: l) == 1 + Py.len l.
Proof.
  unfold Py.len. simpl length. rewrite Nat2Z.inj_succ, <- Z.add_1_l.
  by rewrite inject_Z_plus.
Qed.

Lemma sum_between (l : list Q) lo hi :
  Forall (λ v, lo <= v ∧ v <= hi) l →
  lo * Py.len l <= Py.sum l ∧ Py.sum l <= hi * Py.len l.
Proof.
  unfold Py.sum. rewrite fold_left_Qplus, Qplus_0_l.
  induction 1 as [|x l [Hlo Hhi] _ [IHlo IHhi]].
  - change (Py.len []) with (0 : Q). simpl. lra.
  - rewrite len_cons. simpl. lra.
Qed.

(** X14.  The blended target lies between the strictly positive estimates:
    when some value of the list is strictly positive, bounds that hold for
    every strictly positive value hold for the blend, which therefore is
    neither below the smallest nor above the largest of them. *)
Theorem X14_blend_between (data : Data.t) (vs : list Q) (lo hi ft : Q) :
  final_target data (valid_vals vs) = Return ft →
  (∃ v, In v vs ∧ 0 < v) →
  (∀ v, In v vs → 0 < v → lo <= v ∧ v <= hi) →
  lo <= ft ∧ ft <= hi.
Proof.
  intros Hft (v0 & Hin0 & Hpos0) Hb.
  assert (Hne : valid_vals vs ≠ []).
  { intros E. assert (Hi : In v0 (valid_vals vs)) by by apply valid_vals_In.
    by rewrite E in Hi. }
  destruct (final_target_cases data vs) as [[_ E]|[Hnil _]]; [| done].
  assert (ft = Py.sum (valid_vals vs) / Py.len (valid_vals vs)) as ->
    by congruence.
  pose proof (len_pos _ Hne) as Hlen.
  destruct (sum_between (valid_vals vs) lo hi) as [Hlo Hhi].
  { apply List.Forall_forall. intros v Hv.
    apply valid_vals_In in Hv as [Hin Hpos]. by apply Hb. }
  split.
  - by apply Qle_shift_div_l.
  - by apply Qle_shift_div_r.
Qed.

Lemma round_half_even_error y :
  - (1 # 2) <= inject_Z (Py.round_half_even y) - y
  ∧ inject_Z (Py.round_half_even y) - y <= 1 # 2.
Proof.
  unfold Py.round_half_even.
  pose proof (Qfloor_le y) as Hlo. pose proof (Qlt_floor y) as Hhi.
  rewrite inject_Z_plus in Hhi. change (inject_Z 1) with 1 in Hhi.
  destruct (Qcompare (y - inject_Z (Qfloor y)) (1 # 2)) eqn:C.
  - apply Qeq_alt in C.
    destruct (Z.even (Qfloor y)); [| rewrite inject_Z_plus];
      change (inject_Z 1) with 1; lra.
  - apply Qlt_alt in C. lra.
  - apply Qgt_alt in C. rewrite inject_Z_plus. change (inject_Z 1) with 1. lra.
Qed.

Lemma round_half_even_Z (n : Z) : Py.round_half_even (inject_Z n) = n.
Proof.
  unfold Py.round_half_even. rewrite Qfloor_Z.
  assert (C : Qcompare (inject_Z n - inject_Z n) (1 # 2) = Lt)
    by (apply (proj1 (Qlt_alt _ _)); lra).
  by rewrite C.
Qed.

Lemma hundredths (n : Z) : (n # 100) == inject_Z n / 100.
Proof. apply (Qmake_Qdiv n 100). Qed.

Lemma round2_diff x :
  Py.round2 x - x
  == (inject_Z (Py.round_half_even (x * 100)) - x * 100) / 100.
Proof. unfold Py.round2. rewrite hundredths. field. Qed.

Lemma round2_rounded x : rounded_from (Py.round2 x) x.
Proof.
  unfold rounded_from.
  destruct (round_half_even_error (x * 100)) as [Hlo Hhi].
  split; [by eexists |].
  split; [| split].
  - rewrite round2_diff. apply Qle_shift_div_l; [reflexivity | lra].
  - rewrite round2_diff. apply Qle_shift_div_r; [reflexivity | lra].
  - unfold Py.round2. f_equal.
    rewrite <- (round_half_even_Z (Py.round_half_even (x * 100))) at 2.
    apply round_half_even_proper. rewrite hundredths. field.
Qed.

(** X15.  Every amount of the response is the computed amount rounded to
    hundredths: a whole number of hundredths, at most 0.005 away from the
    unrounded price, blended target, analyst target and three estimates, and
    unchanged by a further rounding. *)
Theorem X15_response_rounded (data : Data.t) (industry : str) :
  let p := ind (is_tw data) industry in
  ∃ ev dcf ft r,
    v_ev data = Return ev ∧
    v_dcf data p (wacc_val data) = Return dcf ∧
    final_target data (valid_vals [v_pe data p; ev; dcf; Data.target_mean data])
      = Return ft ∧
    valuation data industry = Return r ∧
    rounded_from (Response.current_price r) (Data.current_price data) ∧
    rounded_from (Response.target r) ft ∧
    rounded_from (Response.analyst_target r) (Data.target_mean data) ∧
    rounded_from (Response.pe r) (v_pe data p) ∧
    rounded_from (Response.ev r) ev ∧
    rounded_from (Response.dcf r) dcf.
Proof.
  intros p.
  destruct (valuation_Return data industry)
    as (ev & dcf & ft & r & Hev & Hdcf & Hft & Hr & H1 & H2 & H3 & H4 & H5 & H6).
  exists ev, dcf, ft, r. repeat (split; [done |]).
  rewrite H1, H2, H3, H4, H5, H6.
  split; [| split; [| split; [| split; [| split]]]]; apply round2_rounded.
Qed.

Lemma round2_nonpos x : x <= 0 → Py.round2 x <= 0.
Proof.
  intros Hx. destruct (round2_rounded x) as ([n Hn] & _ & Hhi & _).
  rewrite Hn in *. assert (Hle : n # 100 <= 5 # 1000) by lra.
  unfold Qle in *. simpl in *. lia.
Qed.

(** X16.  The guard of [evaluate] turns away a price of 0 only: a snapshot
    with a negative currentPrice is valued like any other, its reported price
    is not positive, and when no estimate is strictly positive (futureEps,
    the EV/EBITDA estimate and targetMeanPrice all at most 0) the reported
    target is that non-positive price. *)
Theorem X16_negative_price (data : Data.t) (industry : str) :
  Data.current_price data < 0 →
  ∃ ev r,
    v_ev data = Return ev ∧
    evaluate_data (Some data) industry = Return r ∧
    Response.current_price r <= 0 ∧
    (Data.future_eps data <= 0 → ev <= 0 → Data.target_mean data <= 0 →
     Response.target r = Response.current_price r).
Proof.
  intros Hneg.
  destruct (valuation_Return data industry)
    as (ev & dcf & ft & r & Hev & Hdcf & Hft & Hr & Hcp & Htg & _).
  exists ev, r. split; [done |].
  rewrite evaluate_data_Some by lra. split; [done |].
  split; [rewrite Hcp; apply round2_nonpos; lra |].
  intros Heps Hevle Htm. rewrite Htg, Hcp. f_equal.
  set (p := ind (is_tw data) industry) in *.
  assert (Hnil : valid_vals [v_pe data p; ev; dcf; Data.target_mean data] = []).
  { apply valid_vals_nil.
    assert (v_pe data p = 0) as -> by (unfold v_pe; by rewrite gt_false).
    assert (dcf = 0) as ->.
    { destruct (v_dcf_cases data p (wacc_val data)) as [[? _]|[_ E]]; [lra |].
      congruence. }
    intros v [<-|[<-|[<-|[<-|[]]]]]; lra. }
  rewrite Hnil in Hft. simpl in Hft. congruence.
Qed.

(** X17.  The reported wacc is a percentage of at least 5: the floor of the
    discount rate survives the scaling by 100 and the rounding. *)
Theorem X17_reported_wacc (data : Data.t) (industry : str) :
  ∃ r, valuation data industry = Return r ∧ 5 <= Response.wacc r.
Proof.
  destruct (valuation_Return data industry)
    as (ev & dcf & ft & r & Hev & Hdcf & Hft & Hr & _).
  exists r. split; [done |].
  rewrite (valuation_eq data industry ev dcf ft Hev Hdcf Hft) in Hr.
  injection Hr as <-. simpl.
  assert (Hw : 0.05 <= wacc_val data) by apply max_ge_r.
  destruct (round2_rounded (wacc_val data * 100)) as ([n Hn] & Hlo & _).
  rewrite Hn in *. assert (Hge : 4995 # 1000 <= n # 100) by lra.
  unfold Qle in *. simpl in *. lia.
Qed.

(** ** The endpoint from the answers of the source *)

Section EndpointMore.
Context `{Unicode}.
Variable yf_info : str → fetch.

Lemma snapshot_not_found (info : Info.t) (final_ticker industry : str) :
  evaluate_data (Some (snapshot info final_ticker)) industry
  = Raise (HTTPException 404 not_found_detail)
  ↔ absent_or_zero (Info.currentPrice info)
    ∧ absent_or_zero (Info.regularMarketPrice info).
Proof.
  set (data := snapshot info final_ticker).
  assert (Hz : Data.current_price data == 0
               ↔ absent_or_zero (Info.currentPrice info)
                 ∧ absent_or_zero (Info.regularMarketPrice info))
    by (unfold data; simpl; by rewrite get_or_zero, default_zero).
  rewrite <- Hz. unfold evaluate_data.
  destruct (eqbP (Data.current_price data) 0); [done |].
  destruct (valuation_Return data industry)
    as (? & ? & ? & r & _ & _ & _ & -> & _).
  done.
Qed.

(** X18.  The endpoint answers 404 exactly when no candidate is accepted
    (every candidate is skipped, or building a handle raised after skipped
    candidates only), or the first accepted candidate has each of its two
    price keys absent or zero.  A first accepted record without a price thus
    hides every later candidate: the resolver does not go on to a priced
    one. *)
Theorem X18_not_found_end_to_end (ticker industry : str) :
  let candidates := search_tickers (upper (strip ticker)) in
  evaluate yf_info ticker industry = Raise (HTTPException 404 not_found_detail)
  ↔ Forall (λ t, attempt yf_info t = Skipped) candidates
    ∨ (∃ before c after,
         candidates = before ++ c :: after ∧
         Forall (λ t, attempt yf_info t = Skipped) before ∧
         attempt yf_info c = Aborted)
    ∨ ∃ before c after info,
        candidates = before ++ c :: after ∧
        Forall (λ t, attempt yf_info t = Skipped) before ∧
        attempt yf_info c = Accepted info ∧
        absent_or_zero (Info.currentPrice info) ∧
        absent_or_zero (Info.regularMarketPrice info).
Proof.
  intros candidates. unfold evaluate, get_stock_data_sync. fold candidates.
  destruct (try_tickers_spec yf_info candidates)
    as [(before & c & after & info & Hc & Hb & Ha & Hrun)
       |[(before & c & after & Hc & Hb & Ha & Hrun)|[Hall Hrun]]];
    rewrite Hrun; cbn [run_result].
  - rewrite snapshot_not_found. split.
    + intros [Hcp Hrmp]. right; right. by exists before, c, after, info.
    + intros [Hall|[(before' & c' & after' & Hc' & Hb' & Ha')
                   |(before' & c' & after' & info' & Hc' & Hb' & Ha' & Hz)]].
      * rewrite (try_tickers_all _ _ Hall) in Hrun. by injection Hrun.
      * pose proof (try_tickers_cut yf_info _ _ after' Hb' Ha') as Hrun'.
        rewrite <- Hc', Hrun in Hrun'. by injection Hrun'.
      * pose proof (try_tickers_first yf_info _ _ after' _ Hb' Ha') as Hrun'.
        rewrite <- Hc', Hrun in Hrun'. by injection Hrun' as _ _ <- <-.
  - split; [| done]. intros _. right; left. by exists before, c, after.
  - split; [| done]. intros _. by left.
Qed.
End EndpointMore.

(** ** The further properties at sample inputs *)

Section MoreSamples.
#[local] Existing Instance ascii_tables.

Lemma X1_witness :
  blank one_space ∧
  tried otc_source (one_space ++ ticker_2330_bare ++ one_space)
  = tried otc_source ticker_2330_bare ∧
  queried otc_source (one_space ++ ticker_2330_bare ++ one_space)
  = queried otc_source ticker_2330_bare.
Proof.
  assert (Hb : blank one_space) by (repeat constructor).
  split; [exact Hb |].
  destruct (X1_padding_ignored otc_source one_space ticker_2330_bare one_space
              Hb Hb) as (Ht & Hq & _).
  split; [exact Ht | exact Hq].
Defined.

Lemma X3_witness :
  get_stock_data_sync otc_source ticker_2330
  = Some (snapshot (priced_info 600) s_2330_TWO) ∧
  ∃ before c,
    queried otc_source ticker_2330 = before ++ [c] ∧
    Forall (λ t, attempt otc_source t = Skipped) before.
Proof.
  assert (Hres : get_stock_data_sync otc_source ticker_2330
                 = Some (snapshot (priced_info 600) s_2330_TWO))
    by reflexivity.
  split; [exact Hres |].
  destruct (proj1 (X3_first_match otc_source ticker_2330 _) Hres)
    as (before & c & after & info & _ & Hb & _ & _ & Hq & _).
  by exists before, c.
Defined.

Lemma X4_witness :
  blank space_tab ∧
  otc_source [] = TickerRaises ∧
  tried otc_source space_tab = [[]] ∧
  queried otc_source space_tab = [] ∧
  evaluate otc_source space_tab label_technology
  = Raise (HTTPException 404 not_found_detail).
Proof.
  assert (Hb : blank space_tab) by (repeat constructor).
  destruct (X4_blank_ticker otc_source space_tab Hb)
    as (_ & Ht & Hraise & _ & H404).
  split; [exact Hb |]. split; [reflexivity |]. split; [exact Ht |].
  split; [exact (proj1 (Hraise eq_refl)) |].
  apply H404. intros info [E _]. discriminate E.
Defined.

Lemma X5_witness :
  absent_or_zero (Info.currentPrice loss_info) ∧
  absent_or_zero (Info.regularMarketPrice loss_info) ∧
  has_price loss_info = true ∧
  evaluate_data (Some (snapshot loss_info s_2330_TW)) label_technology
  = Raise (HTTPException 404 not_found_detail).
Proof.
  destruct (X5_price_fallback loss_info s_2330_TW label_technology)
    as (_ & _ & [_ H404]).
  split; [reflexivity |]. split; [exact I |]. split; [reflexivity |].
  apply H404. split; [reflexivity | exact I].
Defined.

Lemma X6_witness :
  Info.forwardEps profit_info = Some 4 ∧
  Info.trailingEps profit_info = Some (-1) ∧
  Data.future_eps (snapshot profit_info s_AAPL) = 4 ∧
  v_pe (snapshot profit_info s_AAPL) (Ind.mk 25 0.04) = 4 * 25 ∧
  Info.forwardEps loss_info = Some (-2) ∧
  Info.trailingEps loss_info = Some 5 ∧
  Data.future_eps (snapshot loss_info s_2330_TW) = -2 ∧
  v_pe (snapshot loss_info s_2330_TW) (Ind.mk 18 0.04) = 0.
Proof.
  destruct (X6_eps_fallback profit_info s_AAPL (Ind.mk 25 0.04))
    as (Hkeep & _ & Hpos & _).
  destruct (X6_eps_fallback loss_info s_2330_TW (Ind.mk 18 0.04))
    as (_ & _ & _ & Hneg).
  destruct (Hneg (-2) eq_refl eq_refl) as (Heps & Hpe & _).
  split; [reflexivity |]. split; [reflexivity |].
  split; [apply Hkeep; [reflexivity | discriminate] |].
  split; [apply Hpos; reflexivity |].
  split; [reflexivity |]. split; [reflexivity |].
  split; [exact Heps | exact Hpe].
Defined.

Lemma X7_witness :
  Info.beta loss_info = None ∧
  Info.beta (priced_info 600) = None ∧
  wacc_val (snapshot loss_info s_2330_TW) == 0.07 ∧
  wacc_val (snapshot (priced_info 600) s_AAPL) == 0.097.
Proof.
  destruct (X7_missing_beta loss_info s_2330_TW eq_refl) as [Htw _].
  destruct (X7_missing_beta (priced_info 600) s_AAPL eq_refl) as [_ Hus].
  split; [reflexivity |]. split; [reflexivity |].
  split; [apply Htw; reflexivity | apply Hus; discriminate].
Defined.

Lemma X8_witness :
  Info.sharesOutstanding loss_info = None ∧
  Info.ebitda loss_info = Some 10 ∧
  ∃ ev, v_ev (snapshot loss_info s_2330_TW) = Return ev ∧ ev == 120.
Proof.
  split; [reflexivity |]. split; [reflexivity |].
  destruct (X8_missing_shares loss_info s_2330_TW 10 eq_refl eq_refl eq_refl)
    as (ev & Hev & Hval).
  exists ev. split; [exact Hev |]. rewrite Hval. reflexivity.
Defined.

Lemma X9_witness :
  (english_financial ∉ ind_keys) ∧
  ind true english_financial = ind true label_technology.
Proof.
  assert (Hnot : english_financial ∉ ind_keys)
    by (by apply (bool_decide_unpack _)).
  split; [exact Hnot |].
  destruct (X9_industry_table true english_financial)
    as (_ & _ & _ & _ & _ & _ & Hdef).
  exact (Hdef Hnot).
Defined.

Lemma X10_witness :
  is_tw indebted = is_tw unpriced ∧
  Data.beta indebted <= Data.beta unpriced ∧
  wacc_val indebted <= wacc_val unpriced ∧
  wacc_val tw_example <= wacc_val unpriced.
Proof.
  destruct (X10_wacc_monotone indebted unpriced) as (Hbeta & _).
  destruct (X10_wacc_monotone tw_example unpriced) as (_ & Hmarket & _).
  split; [reflexivity |]. split; [discriminate |].
  split; [apply Hbeta; [reflexivity | discriminate] |].
  apply Hmarket; reflexivity.
Defined.

Lemma X11_witness :
  ∃ x x',
    v_dcf solvent (Ind.mk 25 0.04) 0.05 = Return x ∧
    v_dcf solvent (Ind.mk 25 0.04) 0.097 = Return x' ∧
    x' <= x ∧
    x == 2 * (1 + 0.04) / 0.015.
Proof.
  destruct (X11_dcf_bounded solvent (Ind.mk 25 0.04) 0.05 0.097)
    as (x & x' & Hx & Hx' & _ & Hle & Hmax); [discriminate .. |].
  exists x, x'. split; [exact Hx |]. split; [exact Hx' |]. split; [exact Hle |].
  destruct (Hmax eq_refl) as [_ Hfloor]. apply Hfloor. discriminate.
Defined.

Lemma X12_witness :
  v_ev solvent = Return ((10 * 12 - 20 + 0) / 4) ∧
  0 < (10 * 12 - 20 + 0) / 4 ∧
  Data.total_debt solvent < Data.ebitda solvent * 12 + Data.total_cash solvent.
Proof.
  assert (Hev : v_ev solvent = Return ((10 * 12 - 20 + 0) / 4)) by reflexivity.
  destruct (X12_ev_sign solvent _ Hev) as [Hto Hfrom].
  split; [exact Hev |]. split.
  - apply Hfrom. repeat split.
  - apply Hto. reflexivity.
Defined.

Lemma X13_witness :
  0 < Data.future_eps solvent ∧
  0 < v_pe solvent (ind (is_tw solvent) label_energy) ∧
  Data.future_eps negative_priced <= 0 ∧
  valid_vals [v_pe negative_priced (ind false label_energy); 0; 0; 0] = [].
Proof.
  destruct (X13_fallback_condition solvent label_energy)
    as (ev & dcf & _ & _ & Hpos & _).
  destruct (X13_fallback_condition negative_priced label_energy)
    as (ev' & dcf' & Hev' & Hdcf' & _ & [_ Hnil]).
  split; [reflexivity |]. split; [apply Hpos; reflexivity |].
  split; [discriminate |].
  vm_compute in Hev'. injection Hev' as <-.
  vm_compute in Hdcf'. injection Hdcf' as <-.
  apply Hnil. repeat split; discriminate.
Defined.

Lemma X14_witness :
  ∃ ft,
    final_target tw_example (valid_vals [100; 0; 204; 0]) = Return ft ∧
    100 <= ft ∧ ft <= 204.
Proof.
  eexists. split; [reflexivity |].
  apply (X14_blend_between tw_example [100; 0; 204; 0] 100 204);
    [reflexivity | exists 100; split; [by left | reflexivity] |].
  intros v [<-|[<-|[<-|[<-|[]]]]] Hv; try discriminate Hv;
    split; discriminate.
Defined.

Lemma X16_witness :
  Data.current_price negative_priced < 0 ∧
  ∃ r,
    evaluate_data (Some negative_priced) label_technology = Return r ∧
    Response.target r = Response.current_price r ∧
    Response.current_price r <= 0.
Proof.
  split; [reflexivity |].
  destruct (X16_negative_price negative_priced label_technology eq_refl)
    as (ev & r & Hev & Hr & Hle & Htarget).
  exists r. split; [exact Hr |]. split; [| exact Hle].
  vm_compute in Hev. injection Hev as <-.
  apply Htarget; discriminate.
Defined.

Lemma X18_witness :
  attempt zero_primary_source s_2330_TW = Accepted (priced_info 0) ∧
  attempt zero_primary_source s_2330_TWO = Accepted (priced_info 600) ∧
  evaluate zero_primary_source ticker_2330 label_technology
  = Raise (HTTPException 404 not_found_detail).
Proof.
  split; [reflexivity |]. split; [reflexivity |].
  apply (X18_not_found_end_to_end zero_primary_source ticker_2330).
  right; right. exists [], s_2330_TW, [s_2330_TWO], (priced_info 0).
  repeat split. constructor.
Defined.
End MoreSamples.
